(** * DHARA / SimhasthaFlow: the dashboard of [frontend/app/page.tsx]
      and the occupancy-aware core described by the specification.

    The development has two parts.

    - [Dashboard] embeds the React component [DHARADashboard]: its
      interfaces become records, its string-literal unions become
      inductive types with their literal spelling, its [useState] cells
      become one state record, and its handlers and timer callbacks become
      functions on that state.  Browser intervals live outside the React
      state, so the model keeps the set of live interval ids next to it.

    - [Core] holds the operations of the routing and live-state engine
      (occupancy store, emergency lifecycle, route planner).  The
      repository's source tree has no implementation of them; they are
      modelled from the specification and marked as such. *)

From Stdlib Require Import ZArith QArith List String Bool Lia Lqa.
From stdpp Require Import gmap strings list fin_maps.
Import ListNotations.

Local Open Scope string_scope.
Local Open Scope Z_scope.

(* ===================================================================== *)
(** * Part I: the dashboard component                                    *)
(* ===================================================================== *)

Module Dashboard.

(** ** String-literal unions *)

(** [crowd_level: "low" | "medium" | "high" | "critical"] *)
Inductive CrowdLevel := Low | Medium | High | Critical.

Definition level_str (l : CrowdLevel) : string :=
  match l with
  | Low => "low" | Medium => "medium" | High => "high" | Critical => "critical"
  end.

(** The order Low < Medium < High < Critical. *)
Definition level_rank (l : CrowdLevel) : Z :=
  match l with Low => 0 | Medium => 1 | High => 2 | Critical => 3 end.

Definition level_le (a b : CrowdLevel) : Prop := level_rank a <= level_rank b.

(** [severity: "low" | "medium" | "high" | "critical"] *)
Inductive Severity := SevLow | SevMedium | SevHigh | SevCritical.

(** [status: "active" | "resolved" | "responding"] *)
Inductive EmergencyStatus := Active | Resolved | Responding.

Definition status_str (s : EmergencyStatus) : string :=
  match s with
  | Active => "active" | Resolved => "resolved" | Responding => "responding"
  end.

Inductive ImpactLevel := ImpactLow | ImpactMedium | ImpactHigh.

Inductive RouteType := Pilgrim | Vip | EmergencyRoute | AccessibilityRoute.

Definition route_type_str (t : RouteType) : string :=
  match t with
  | Pilgrim => "pilgrim" | Vip => "vip"
  | EmergencyRoute => "emergency" | AccessibilityRoute => "accessibility"
  end.

Inductive Traffic := TrafficLow | TrafficMedium | TrafficHigh.

Definition traffic_str (t : Traffic) : string :=
  match t with
  | TrafficLow => "low" | TrafficMedium => "medium" | TrafficHigh => "high"
  end.

Inductive ScenarioType :=
  CrowdOverflow | WeatherEmergency | VipMovement | AccessibilityEvent.

Inductive SyncStatus := Online | Partial | Offline.

Inductive MapOverlay := OvCrowd | OvWeather | OvRoutes | OvAccessibility.

(** ** Interfaces *)

(** JavaScript numbers that hold counts are integers ([Z]); the decimal
    literals (scores, distances) are exact rationals ([Q]). *)

Record CrowdData := {
  zone_id : string;
  zone_name : string;
  current_occupancy : Z;
  max_capacity : Z;
  crowd_level : CrowdLevel;
  safety_score : Q;
  accessibility_features : list string;
  last_updated : string
}.

Record Emergency := {
  id : string;
  type : string;
  location : string;
  severity : Severity;
  status : EmergencyStatus;
  timestamp : string;
  response_time : option Z;
  assigned_team : option string
}.

Record WeatherData := {
  temperature : Z;
  humidity : Z;
  wind_speed : Z;
  conditions : string;
  impact_level : ImpactLevel;
  alerts : list string
}.

(** [id], [name], [type] and [safety_score] are taken by the records
    above, so the fields of [RouteData] and [SimulationScenario] that bear
    those names carry a prefix. *)
Record RouteData := {
  route_id : string;
  route_name : string;
  route_type : RouteType;
  distance : Q;
  estimated_time : Z;
  route_safety_score : Q;
  features : list string;
  current_traffic : Traffic
}.

Record SimulationScenario := {
  scenario_id : string;
  scenario_name : string;
  scenario_type : ScenarioType;
  description : string;
  duration : Z
}.

(** ** The literals installed by the mount effect *)

(** [new Date().toISOString()] is read once per record; the model takes the
    resulting string as the parameter [now]. *)
Definition mahakaleshwarTemple (now : string) : CrowdData :=
  {| zone_id := "1"; zone_name := "Mahakaleshwar Temple";
     current_occupancy := 2850; max_capacity := 3000;
     crowd_level := High; safety_score := (72 # 10)%Q;
     accessibility_features := ["Wheelchair Access"; "Audio Guidance"; "Rest Areas"];
     last_updated := now |}.

Definition medicalCenterHub (now : string) : CrowdData :=
  {| zone_id := "4"; zone_name := "Medical Center Hub";
     current_occupancy := 45; max_capacity := 100;
     crowd_level := Low; safety_score := (98 # 10)%Q;
     accessibility_features := ["Emergency Access"; "Ambulance Bay"; "Helicopter Pad"];
     last_updated := now |}.

Definition mockCrowdData (now : string) : list CrowdData :=
  [ mahakaleshwarTemple now;
    {| zone_id := "2"; zone_name := "Shipra Ghat";
       current_occupancy := 1450; max_capacity := 2000;
       crowd_level := Medium; safety_score := (85 # 10)%Q;
       accessibility_features := ["Ramp Access"; "Portable Toilets"; "Medical Station"];
       last_updated := now |};
    {| zone_id := "3"; zone_name := "VIP Parking Zone";
       current_occupancy := 320; max_capacity := 500;
       crowd_level := Medium; safety_score := (91 # 10)%Q;
       accessibility_features := ["Reserved Parking"; "Security"; "Direct Access"];
       last_updated := now |};
    medicalCenterHub now;
    {| zone_id := "5"; zone_name := "Food Court Area";
       current_occupancy := 890; max_capacity := 1200;
       crowd_level := Medium; safety_score := (83 # 10)%Q;
       accessibility_features := ["Wheelchair Tables"; "Water Stations"; "Shade Covers"];
       last_updated := now |} ].

Definition medicalEmergency : Emergency :=
  {| id := "1"; type := "Medical Emergency";
     location := "Mahakaleshwar Temple - Section B";
     severity := SevHigh; status := Responding;
     timestamp := "2024-01-15T10:30:00Z";
     response_time := Some 4; assigned_team := Some "Medical Team Alpha" |}.

Definition crowdCongestion : Emergency :=
  {| id := "2"; type := "Crowd Congestion";
     location := "Shipra Ghat - Entry Point 2";
     severity := SevMedium; status := Active;
     timestamp := "2024-01-15T11:15:00Z";
     response_time := None; assigned_team := Some "Crowd Control Beta" |}.

Definition mockEmergencies : list Emergency := [medicalEmergency; crowdCongestion].

Definition mockWeather : WeatherData :=
  {| temperature := 32; humidity := 68; wind_speed := 12;
     conditions := "Partly Cloudy"; impact_level := ImpactMedium;
     alerts := ["High Temperature Warning"; "Increased Hydration Needed"] |}.

Definition mainPilgrimRoute : RouteData :=
  {| route_id := "1"; route_name := "Main Pilgrim Route"; route_type := Pilgrim;
     distance := (25 # 10)%Q; estimated_time := 15; route_safety_score := (85 # 10)%Q;
     features := ["Shade Coverage"; "Water Points"; "Rest Areas"];
     current_traffic := TrafficHigh |}.

Definition mockRoutes : list RouteData :=
  [ mainPilgrimRoute;
    {| route_id := "2"; route_name := "VIP Corridor"; route_type := Vip;
       distance := (18 # 10)%Q; estimated_time := 8; route_safety_score := (92 # 10)%Q;
       features := ["Security Escort"; "Climate Control"; "Direct Access"];
       current_traffic := TrafficLow |};
    {| route_id := "3"; route_name := "Emergency Access Route"; route_type := EmergencyRoute;
       distance := (12 # 10)%Q; estimated_time := 5; route_safety_score := (98 # 10)%Q;
       features := ["Clear Path"; "Emergency Lighting"; "Communication Points"];
       current_traffic := TrafficLow |};
    {| route_id := "4"; route_name := "Accessibility Path"; route_type := AccessibilityRoute;
       distance := (32 # 10)%Q; estimated_time := 25; route_safety_score := (90 # 10)%Q;
       features := ["Wheelchair Friendly"; "Gentle Slopes"; "Audio Guidance"];
       current_traffic := TrafficMedium |} ].

Definition simulationScenarios : list SimulationScenario :=
  [ {| scenario_id := "1"; scenario_name := "Crowd Overflow Scenario";
       scenario_type := CrowdOverflow;
       description := "Simulate high crowd density during peak hours";
       duration := 30 |};
    {| scenario_id := "2"; scenario_name := "Weather Emergency";
       scenario_type := WeatherEmergency;
       description := "Heavy rainfall impact on crowd movement";
       duration := 45 |};
    {| scenario_id := "3"; scenario_name := "VIP Movement Protocol";
       scenario_type := VipMovement;
       description := "Coordinate VIP arrival and route clearance";
       duration := 20 |};
    {| scenario_id := "4"; scenario_name := "Accessibility Event";
       scenario_type := AccessibilityEvent;
       description := "Large group requiring accessibility assistance";
       duration := 35 |} ].

(** ** Component state *)

(** One field per [useState] cell, initialised as in the source. *)
Record DashboardState := {
  crowdData : list CrowdData;
  emergencies : list Emergency;
  weather : option WeatherData;
  routes : list RouteData;
  isLoading : bool;
  isDarkMode : bool;
  syncStatus : SyncStatus;
  selectedScenario : string;
  simulationProgress : Z;
  isSimulationRunning : bool;
  mapOverlay : MapOverlay;
  notifications : Z
}.

Definition initialState : DashboardState :=
  {| crowdData := []; emergencies := []; weather := None; routes := [];
     isLoading := true; isDarkMode := false; syncStatus := Online;
     selectedScenario := EmptyString; simulationProgress := 0;
     isSimulationRunning := false; mapOverlay := OvCrowd; notifications := 3 |}.

(** The setters used by the component. *)
Definition setCrowdData v (s : DashboardState) :=
  {| crowdData := v; emergencies := emergencies s; weather := weather s;
     routes := routes s; isLoading := isLoading s; isDarkMode := isDarkMode s;
     syncStatus := syncStatus s; selectedScenario := selectedScenario s;
     simulationProgress := simulationProgress s;
     isSimulationRunning := isSimulationRunning s;
     mapOverlay := mapOverlay s; notifications := notifications s |}.

Definition setEmergencies v (s : DashboardState) :=
  {| crowdData := crowdData s; emergencies := v; weather := weather s;
     routes := routes s; isLoading := isLoading s; isDarkMode := isDarkMode s;
     syncStatus := syncStatus s; selectedScenario := selectedScenario s;
     simulationProgress := simulationProgress s;
     isSimulationRunning := isSimulationRunning s;
     mapOverlay := mapOverlay s; notifications := notifications s |}.

Definition setWeather v (s : DashboardState) :=
  {| crowdData := crowdData s; emergencies := emergencies s; weather := v;
     routes := routes s; isLoading := isLoading s; isDarkMode := isDarkMode s;
     syncStatus := syncStatus s; selectedScenario := selectedScenario s;
     simulationProgress := simulationProgress s;
     isSimulationRunning := isSimulationRunning s;
     mapOverlay := mapOverlay s; notifications := notifications s |}.

Definition setRoutes v (s : DashboardState) :=
  {| crowdData := crowdData s; emergencies := emergencies s; weather := weather s;
     routes := v; isLoading := isLoading s; isDarkMode := isDarkMode s;
     syncStatus := syncStatus s; selectedScenario := selectedScenario s;
     simulationProgress := simulationProgress s;
     isSimulationRunning := isSimulationRunning s;
     mapOverlay := mapOverlay s; notifications := notifications s |}.

Definition setIsLoading v (s : DashboardState) :=
  {| crowdData := crowdData s; emergencies := emergencies s; weather := weather s;
     routes := routes s; isLoading := v; isDarkMode := isDarkMode s;
     syncStatus := syncStatus s; selectedScenario := selectedScenario s;
     simulationProgress := simulationProgress s;
     isSimulationRunning := isSimulationRunning s;
     mapOverlay := mapOverlay s; notifications := notifications s |}.

Definition setIsDarkMode v (s : DashboardState) :=
  {| crowdData := crowdData s; emergencies := emergencies s; weather := weather s;
     routes := routes s; isLoading := isLoading s; isDarkMode := v;
     syncStatus := syncStatus s; selectedScenario := selectedScenario s;
     simulationProgress := simulationProgress s;
     isSimulationRunning := isSimulationRunning s;
     mapOverlay := mapOverlay s; notifications := notifications s |}.

Definition setSelectedScenario v (s : DashboardState) :=
  {| crowdData := crowdData s; emergencies := emergencies s; weather := weather s;
     routes := routes s; isLoading := isLoading s; isDarkMode := isDarkMode s;
     syncStatus := syncStatus s; selectedScenario := v;
     simulationProgress := simulationProgress s;
     isSimulationRunning := isSimulationRunning s;
     mapOverlay := mapOverlay s; notifications := notifications s |}.

Definition setSimulationProgress v (s : DashboardState) :=
  {| crowdData := crowdData s; emergencies := emergencies s; weather := weather s;
     routes := routes s; isLoading := isLoading s; isDarkMode := isDarkMode s;
     syncStatus := syncStatus s; selectedScenario := selectedScenario s;
     simulationProgress := v;
     isSimulationRunning := isSimulationRunning s;
     mapOverlay := mapOverlay s; notifications := notifications s |}.

Definition setIsSimulationRunning v (s : DashboardState) :=
  {| crowdData := crowdData s; emergencies := emergencies s; weather := weather s;
     routes := routes s; isLoading := isLoading s; isDarkMode := isDarkMode s;
     syncStatus := syncStatus s; selectedScenario := selectedScenario s;
     simulationProgress := simulationProgress s;
     isSimulationRunning := v;
     mapOverlay := mapOverlay s; notifications := notifications s |}.

Definition setMapOverlay v (s : DashboardState) :=
  {| crowdData := crowdData s; emergencies := emergencies s; weather := weather s;
     routes := routes s; isLoading := isLoading s; isDarkMode := isDarkMode s;
     syncStatus := syncStatus s; selectedScenario := selectedScenario s;
     simulationProgress := simulationProgress s;
     isSimulationRunning := isSimulationRunning s;
     mapOverlay := v; notifications := notifications s |}.

(** ** The page: React state plus the browser's live intervals *)

Record Page := {
  ui : DashboardState;
  intervals : list nat;   (* ids returned by [setInterval], not yet cleared *)
  nextInterval : nat      (* the id the next [setInterval] returns *)
}.

Definition initialPage : Page :=
  {| ui := initialState; intervals := []; nextInterval := 0 |}.

Definition withUi (f : DashboardState -> DashboardState) (p : Page) : Page :=
  {| ui := f (ui p); intervals := intervals p; nextInterval := nextInterval p |}.

Definition setInterval (p : Page) : nat * Page :=
  (nextInterval p,
   {| ui := ui p; intervals := nextInterval p :: intervals p;
      nextInterval := S (nextInterval p) |}).

Definition clearInterval (i : nat) (p : Page) : Page :=
  {| ui := ui p;
     intervals := List.filter (fun j => negb (Nat.eqb j i)) (intervals p);
     nextInterval := nextInterval p |}.

Definition isLive (i : nat) (p : Page) : bool :=
  existsb (Nat.eqb i) (intervals p).

(** The mount effect [useEffect(..., [])]. *)
Definition mountEffect (now : string) (s : DashboardState) : DashboardState :=
  setIsLoading false
    (setRoutes mockRoutes
       (setWeather (Some mockWeather)
          (setEmergencies mockEmergencies
             (setCrowdData (mockCrowdData now) s)))).

(** The updater passed to [setSimulationProgress] by the interval [i]:
<<
  (prev) => { if (prev >= 100) { clearInterval(interval);
                                 setIsSimulationRunning(false); return 100 }
              return prev + 2 }
>> *)
Definition simulationTick (i : nat) (p : Page) : Page :=
  let prev := simulationProgress (ui p) in
  if 100 <=? prev then
    withUi (setSimulationProgress 100)
      (withUi (setIsSimulationRunning false) (clearInterval i p))
  else
    withUi (setSimulationProgress (prev + 2)) p.

(** [startSimulation]: the interval's callback is [simulationTick] for
    the id that [setInterval] returns. *)
Definition startSimulation (p : Page) : Page :=
  let p1 := withUi (setIsSimulationRunning true) p in
  let p2 := withUi (setSimulationProgress 0) p1 in
  snd (setInterval p2).

(** [resetSimulation]: it clears no interval. *)
Definition resetSimulation (p : Page) : Page :=
  withUi (setSimulationProgress 0) (withUi (setIsSimulationRunning false) p).

(** What can happen to the page.  An interval fires only while it is
    live; the other events are the handlers wired in the JSX. *)
Inductive Event :=
| Mount (now : string)
| ToggleDarkMode
| ChooseOverlay (v : MapOverlay)
| ChooseScenario (sid : string)
| StartSimulation
| IntervalFires (i : nat)
| ResetSimulation.

Definition step (p : Page) (e : Event) : Page :=
  match e with
  | Mount now => withUi (mountEffect now) p
  | ToggleDarkMode => withUi (fun s => setIsDarkMode (negb (isDarkMode s)) s) p
  | ChooseOverlay v => withUi (setMapOverlay v) p
  | ChooseScenario sid => withUi (setSelectedScenario sid) p
  | StartSimulation => startSimulation p
  | IntervalFires i => if isLive i p then simulationTick i p else p
  | ResetSimulation => resetSimulation p
  end.

Definition run (p : Page) (es : list Event) : Page := fold_left step es p.

(** The [disabled] attributes of the two simulation buttons. *)
Definition startDisabled (s : DashboardState) : bool :=
  String.eqb (selectedScenario s) EmptyString || isSimulationRunning s.

Definition resetDisabled (s : DashboardState) : bool :=
  simulationProgress s =? 0.

(** ** Rendering *)

(** [getCrowdLevelColor(level: string)], a [switch] with a default. *)
Definition getCrowdLevelColor (level : string) : string :=
  if String.eqb level "low" then "bg-green-100 text-green-800 border-green-200"
  else if String.eqb level "medium" then "bg-yellow-100 text-yellow-800 border-yellow-200"
  else if String.eqb level "high" then "bg-orange-100 text-orange-800 border-orange-200"
  else if String.eqb level "critical" then "bg-red-100 text-red-800 border-red-200"
  else "bg-gray-100 text-gray-800 border-gray-200".

(** The class chosen for a zone tile of the map:
<<
  zone.crowd_level === "high" ? "heatmap-high border-red-300"
    : zone.crowd_level === "medium" ? "heatmap-medium border-yellow-300"
    : "heatmap-low border-green-300"
>> *)
Definition heatmapClass (zone : CrowdData) : string :=
  if String.eqb (level_str (crowd_level zone)) "high" then "heatmap-high border-red-300"
  else if String.eqb (level_str (crowd_level zone)) "medium"
       then "heatmap-medium border-yellow-300"
       else "heatmap-low border-green-300".

(** [zone.crowd_level === "high" && <div ... animate-pulse />] *)
Definition showsPulse (zone : CrowdData) : bool :=
  String.eqb (level_str (crowd_level zone)) "high".

(** What one tile of the map shows for its zone. *)
Record ZoneTile := {
  tile_key : string;
  tile_class : string;
  tile_badge_class : string;
  tile_badge_text : string;
  tile_pulse : bool
}.

Definition renderZoneTile (zone : CrowdData) : ZoneTile :=
  {| tile_key := zone_id zone;
     tile_class := heatmapClass zone;
     tile_badge_class := getCrowdLevelColor (level_str (crowd_level zone));
     tile_badge_text := level_str (crowd_level zone);
     tile_pulse := showsPulse zone |}.

(** [crowdData.slice(0, 6).map(...)] *)
Definition mapTiles (s : DashboardState) : list ZoneTile :=
  List.map renderZoneTile (firstn 6 (crowdData s)).

(** [emergencies.filter((e) => e.status === "active" || e.status === "responding")] *)
Definition alertBanner (s : DashboardState) : list Emergency :=
  List.filter
    (fun e => String.eqb (status_str (status e)) "active"
              || String.eqb (status_str (status e)) "responding")
    (emergencies s).

(** The banner block is rendered when that list is not empty. *)
Definition alertBannerShown (s : DashboardState) : bool :=
  (0 <? Z.of_nat (length (alertBanner s))).

(** [emergencies.filter((e) => e.status === "active")], used by the
    "Emergencies" line of the live statistics and by the emergency tab. *)
Definition activeEmergencies (s : DashboardState) : list Emergency :=
  List.filter (fun e => String.eqb (status_str (status e)) "active")
              (emergencies s).

(** [emergencies.filter((e) => e.status === "active").length] *)
Definition emergenciesCounter (s : DashboardState) : Z :=
  Z.of_nat (length (activeEmergencies s)).


(** ** A route as the object it is *)

(** The values a [RouteData] object holds under its keys. *)
Inductive JsValue :=
| JsNum (q : Q)
| JsStr (s : string)
| JsStrs (l : list string).

Definition routeObject (r : RouteData) : list (string * JsValue) :=
  [ ("id", JsStr (route_id r));
    ("name", JsStr (route_name r));
    ("type", JsStr (route_type_str (route_type r)));
    ("distance", JsNum (distance r));
    ("estimated_time", JsNum (inject_Z (estimated_time r)));
    ("safety_score", JsNum (route_safety_score r));
    ("features", JsStrs (features r));
    ("current_traffic", JsStr (traffic_str (current_traffic r))) ].

Fixpoint getProp (k : string) (o : list (string * JsValue)) : option JsValue :=
  match o with
  | [] => None
  | (k', v) :: o' => if String.eqb k k' then Some v else getProp k o'
  end.

(** ** The specification's words, for comparison with the stored data *)

(** [current_occupancy / max_capacity] as an exact rational. *)
Definition occupancy_ratio (zone : CrowdData) : Q :=
  (inject_Z (current_occupancy zone) / inject_Z (max_capacity zone))%Q.

(** The band of a ratio under the entry thresholds: Critical at >= 1.0,
    High at >= 0.8, Medium at >= 0.5, Low below. *)
Definition spec_band (r : Q) : CrowdLevel :=
  if Qle_bool 1 r then Critical
  else if Qle_bool (8 # 10) r then High
  else if Qle_bool (5 # 10) r then Medium
  else Low.

(** The specification's route: a sequence of zone or segment ids and four
    numbers (total distance, total estimated time, aggregate safety score,
    crowd-exposure integral), each under a key of its own. *)
Definition carriesSpecRoute (o : list (string * JsValue)) : Prop :=
  exists kseq kdist ktime ksafe kexp ids d t sf ex,
    List.NoDup [kdist; ktime; ksafe; kexp] /\
    getProp kseq o = Some (JsStrs ids) /\
    getProp kdist o = Some (JsNum d) /\
    getProp ktime o = Some (JsNum t) /\
    getProp ksafe o = Some (JsNum sf) /\
    getProp kexp o = Some (JsNum ex).

(** ** Auxiliary notions for the statements below *)

(** The data cells hold either their initial empty value or the literals
    of the mount effect. *)
Definition holdsLiterals (s : DashboardState) : Prop :=
  (crowdData s = [] \/ exists now, crowdData s = mockCrowdData now) /\
  (emergencies s = [] \/ emergencies s = mockEmergencies) /\
  (routes s = [] \/ routes s = mockRoutes).

(** A zone at the critical level, as the type [CrowdData] admits it, and
    the same zone at the low level. *)
Definition criticalZone : CrowdData :=
  {| zone_id := "1"; zone_name := "Mahakaleshwar Temple";
     current_occupancy := 3000; max_capacity := 3000;
     crowd_level := Critical; safety_score := (72 # 10)%Q;
     accessibility_features := ["Wheelchair Access"; "Audio Guidance"; "Rest Areas"];
     last_updated := "2024-01-15T10:30:00.000Z" |}.

Definition lowZone : CrowdData :=
  {| zone_id := "1"; zone_name := "Mahakaleshwar Temple";
     current_occupancy := 300; max_capacity := 3000;
     crowd_level := Low; safety_score := (72 # 10)%Q;
     accessibility_features := ["Wheelchair Access"; "Audio Guidance"; "Rest Areas"];
     last_updated := "2024-01-15T10:30:00.000Z" |}.

(** The number of emergencies whose status is exactly active. *)
Fixpoint countActive (l : list Emergency) : Z :=
  match l with
  | [] => 0
  | e :: l' => (match status e with Active => 1 | _ => 0 end) + countActive l'
  end.

(** The progress values seen after each event of a run. *)
Fixpoint progressAlong (p : Page) (es : list Event) : list Z :=
  match es with
  | [] => []
  | e :: es' =>
      simulationProgress (ui (step p e)) :: progressAlong (step p e) es'
  end.

(** Two states that differ at most in the selected scenario. *)
Definition sameButScenario (a b : DashboardState) : Prop :=
  setSelectedScenario EmptyString a = setSelectedScenario EmptyString b.

(** Two pages that differ at most in the selected scenario. *)
Definition alike (p q : Page) : Prop :=
  sameButScenario (ui p) (ui q) /\ intervals p = intervals q
  /\ nextInterval p = nextInterval q.

(** A simulation started on the mounted page for the scenario [sid],
    followed by [k] firings of its interval. *)
Definition simulated (now sid : string) (k : nat) : Page :=
  run initialPage
    (Mount now :: ChooseScenario sid :: StartSimulation
     :: repeat (IntervalFires 0) k).

(** ** Further rendering and handlers *)

Definition severity_str (s : Severity) : string :=
  match s with
  | SevLow => "low" | SevMedium => "medium" | SevHigh => "high"
  | SevCritical => "critical"
  end.

(** [getSeverityColor(severity: string)], a [switch] with a default. *)
Definition getSeverityColor (severity : string) : string :=
  if String.eqb severity "low" then "bg-blue-100 text-blue-800"
  else if String.eqb severity "medium" then "bg-yellow-100 text-yellow-800"
  else if String.eqb severity "high" then "bg-orange-100 text-orange-800"
  else if String.eqb severity "critical" then "bg-red-100 text-red-800"
  else "bg-gray-100 text-gray-800".

(** The badges of a route card, variant and text: three conditionals side
    by side,
<<
  {route.type === "vip" && <Badge variant="secondary">VIP</Badge>}
  {route.type === "emergency" && <Badge variant="destructive">Emergency</Badge>}
  {route.type === "accessibility" && <Badge variant="outline">Accessibility</Badge>}
>> *)
Definition routeBadges (route : RouteData) : list (string * string) :=
  ((if String.eqb (route_type_str (route_type route)) "vip"
    then [("secondary", "VIP")] else [])
   ++ (if String.eqb (route_type_str (route_type route)) "emergency"
       then [("destructive", "Emergency")] else [])
   ++ (if String.eqb (route_type_str (route_type route)) "accessibility"
       then [("outline", "Accessibility")] else []))%list.

(** [variant={emergency.status === "responding" ? "default" : "destructive"}] *)
Definition alertBadgeVariant (e : Emergency) : string :=
  if String.eqb (status_str (status e)) "responding" then "default"
  else "destructive".

(** What React puts on the page for a child expression: text, or a number
    printed as it is.  A template literal with a number inside is given
    by its pieces. *)
Inductive Child :=
| ChText (s : string)
| ChNum (n : Z).

(** [{emergency.assigned_team && ` | Team: ${emergency.assigned_team}`}]:
    [undefined] and the empty string are falsy, and React renders neither. *)
Definition teamChildren (e : Emergency) : list Child :=
  match assigned_team e with
  | None => []
  | Some t => if String.eqb t EmptyString then []
              else [ChText (" | Team: " ++ t)%string]
  end.

(** [{emergency.response_time && ` | Response: ${emergency.response_time} min`}]:
    [undefined] renders nothing, but the falsy number 0 is the value of
    the conjunction and React prints it. *)
Definition responseChildren (e : Emergency) : list Child :=
  match response_time e with
  | None => []
  | Some n => if n =? 0 then [ChNum n]
              else [ChText " | Response: "; ChNum n; ChText " min"]
  end.

(** The detail line of an alert; [localeTime] stands for
    [new Date(emergency.timestamp).toLocaleTimeString()]. *)
Definition alertDetails (localeTime : string) (e : Emergency) : list Child :=
  ([ChText "Time: "; ChText localeTime] ++ teamChildren e ++ responseChildren e)%list.

(** [simulationScenarios.find((s) => s.id === selectedScenario)] *)
Definition findScenario (sid : string) : option SimulationScenario :=
  List.find (fun sc => String.eqb (scenario_id sc) sid) simulationScenarios.

(** [{selectedScenario && (...)}]: the scenario panel. *)
Definition scenarioPanelShown (s : DashboardState) : bool :=
  negb (String.eqb (selectedScenario s) EmptyString).

(** [{simulationProgress > 0 && (...)}]: the progress bar. *)
Definition progressShown (s : DashboardState) : bool :=
  0 <? simulationProgress s.

(** The message of the results panel, chosen by [simulationProgress > 0]. *)
Definition resultsMessage (s : DashboardState) : string :=
  if 0 <? simulationProgress s then "Simulation in progress..."
  else "Select and run a scenario".


(** A click on a button does nothing while the button is disabled. *)
Definition clickStart (p : Page) : Page :=
  if startDisabled (ui p) then p else startSimulation p.

Definition clickReset (p : Page) : Page :=
  if resetDisabled (ui p) then p else resetSimulation p.

(** A run in which Start and Reset arrive as clicks on their buttons. *)
Definition guardedStep (p : Page) (e : Event) : Page :=
  match e with
  | StartSimulation => clickStart p
  | ResetSimulation => clickReset p
  | _ => step p e
  end.

Definition guardedRun (p : Page) (es : list Event) : Page :=
  fold_left guardedStep es p.

Definition isReset (e : Event) : bool :=
  match e with ResetSimulation => true | _ => false end.

(** Either no interval is live and nothing runs, or exactly one is and
    the running flag is set. *)
Definition oneTimer (p : Page) : Prop :=
  (intervals p = [] /\ isSimulationRunning (ui p) = false) \/
  (exists i, intervals p = [i] /\ isSimulationRunning (ui p) = true).


Definition isToggle (e : Event) : bool :=
  match e with ToggleDarkMode => true | _ => false end.

Definition isStart (e : Event) : bool :=
  match e with StartSimulation => true | _ => false end.

(** The number of emergencies whose status is responding. *)
Fixpoint countResponding (l : list Emergency) : Z :=
  match l with
  | [] => 0
  | e :: l' => (match status e with Responding => 1 | _ => 0 end) + countResponding l'
  end.


(** Interval ids are handed out in increasing order and never reused. *)
Definition idsFresh (p : Page) : Prop :=
  List.NoDup (intervals p) /\
  Forall (fun i => (i < nextInterval p)%nat) (intervals p).

End Dashboard.

(* ===================================================================== *)
(** * Part II: the occupancy-aware core                                  *)
(* ===================================================================== *)

Module Core.

(** Modelled from the spec: the error taxonomy of the core (section 7);
    the source tree declares no such type. *)
Inductive CoreError :=
  InvalidInput | NotFound | StaleData | Timeout | Isolated.

Inductive CrowdLevel := Low | Medium | High | Critical.

Definition level_rank (l : CrowdLevel) : Z :=
  match l with Low => 0 | Medium => 1 | High => 2 | Critical => 3 end.

Inductive Source := Measured | Estimated.

Inductive ZoneCategory := Temple | Ghat | Parking | Medical | Camp | Other.

(** Modelled from the spec: the zone of the data model (section 3).
    Zones and segments are addressed by integer index (section 9). *)
Record Zone := {
  zone_name : string;
  category : ZoneCategory;
  zone_capacity : Z;
  zone_safety : Z;
  zone_accessible : bool
}.

(** Modelled from the spec: the occupancy record of the data model
    (section 3), one per zone. *)
Record OccupancyRecord := {
  zoneId : nat;
  count : Z;
  capacity : Z;
  level : CrowdLevel;
  confidence : Q;
  source : Source;
  timestamp : Z
}.

(** ** OccupancyState *)

(** Modelled from the spec: the entry thresholds Medium 0.5, High 0.8,
    Critical 1.0 (section 4.2). *)
Definition entryThreshold (l : CrowdLevel) : Q :=
  match l with
  | Low => 0 | Medium => 5 # 10 | High => 8 # 10 | Critical => 1
  end.

(** Modelled from the spec: the re-entry threshold lies 10 percentage
    points under the entry threshold (section 4.2). *)
Definition exitThreshold (l : CrowdLevel) : Q :=
  (entryThreshold l - (1 # 10))%Q.

(** Modelled from the spec: a band is taken when the ratio reaches its
    entry threshold, and kept by a zone that was in it (or above) while
    the ratio has not dropped below its re-entry threshold. *)
Definition inBand (prev : CrowdLevel) (r : Q) (b : CrowdLevel) : bool :=
  Qle_bool (entryThreshold b) r
  || (level_rank b <=? level_rank prev) && Qle_bool (exitThreshold b) r.

(** Modelled from the spec: the hysteretic level derivation of
    [OccupancyState] (section 4.2), which the source tree does not
    implement. *)
Definition hystereticLevel (prev : CrowdLevel) (cnt cap : Z) : CrowdLevel :=
  let r := (inject_Z cnt / inject_Z cap)%Q in
  if inBand prev r Critical then Critical
  else if inBand prev r High then High
  else if inBand prev r Medium then Medium
  else Low.

Inductive Outcome := Accepted | Rejected (e : CoreError).

(** Modelled from the spec: [applyUpdate(zoneId, count, source, timestamp)]
    of [OccupancyState] (section 4.2), absent from the source tree.  It
    rejects with [StaleData], as a no-op, when the timestamp is not newer
    than the stored one; otherwise it replaces the record, with the
    capacity denormalised from the zone and the level recomputed from
    (count, capacity, previous level).  An update for a zone the graph
    does not know is [NotFound]. *)
Definition applyUpdate (zones : gmap nat Zone)
    (z : nat) (cnt : Z) (src : Source) (ts : Z)
    (store : gmap nat OccupancyRecord) : Outcome * gmap nat OccupancyRecord :=
  let write (prev : CrowdLevel) :=
    match zones !! z with
    | None => (Rejected NotFound, store)
    | Some zn =>
        (Accepted,
         <[z := {| zoneId := z; count := cnt; capacity := zone_capacity zn;
                   level := hystereticLevel prev cnt (zone_capacity zn);
                   confidence := 1; source := src; timestamp := ts |}]> store)
    end in
  match store !! z with
  | Some r => if ts <=? timestamp r then (Rejected StaleData, store)
              else write (level r)
  | None => write Low
  end.

(** ** Emergency lifecycle *)

Inductive EmergencyType := MedicalEm | Stampede | Fire | Security | Natural.

Inductive Severity := SevLow | SevMedium | SevHigh | SevCritical.

Inductive EmergencyStatus := Reported | Responding | Resolved.

Definition status_rank (s : EmergencyStatus) : Z :=
  match s with Reported => 0 | Responding => 1 | Resolved => 2 end.

(** Modelled from the spec: the emergency of the data model (section 3);
    its id is the key under which the book holds it. *)
Record Emergency := {
  em_type : EmergencyType;
  locationZone : nat;
  severity : Severity;
  status : EmergencyStatus;
  reportedAt : Z;
  resolvedAt : option Z
}.

(** Modelled from the spec: the emergencies by id, and the audit trail
    of timestamped status changes (section 3). *)
Record EmergencyBook := {
  book : gmap nat Emergency;
  audit : list (nat * EmergencyStatus * Z)
}.

Definition withStatus (e : Emergency) (s : EmergencyStatus) (now : Z) : Emergency :=
  {| em_type := em_type e; locationZone := locationZone e;
     severity := severity e; status := s; reportedAt := reportedAt e;
     resolvedAt := match s with Resolved => Some now | _ => resolvedAt e end |}.

(** Modelled from the spec: the status transition of the emergency
    lifecycle (section 3 and scenario C), absent from the source tree.
    A move to an earlier status is rejected as [InvalidInput]; a move to
    a later one is recorded and timestamped; naming the current status
    again changes nothing. *)
Definition setStatus (eid : nat) (new : EmergencyStatus) (now : Z)
    (b : EmergencyBook) : Outcome * EmergencyBook :=
  match book b !! eid with
  | None => (Rejected NotFound, b)
  | Some e =>
      if status_rank new <? status_rank (status e) then (Rejected InvalidInput, b)
      else if status_rank new =? status_rank (status e) then (Accepted, b)
      else (Accepted,
            {| book := <[eid := withStatus e new now]> (book b);
               audit := (eid, new, now) :: audit b |})
  end.

(** ** ZoneGraph, CostModel and RoutePlanner *)

(** Modelled from the spec: the segment of the data model (section 3). *)
Record Segment := {
  seg_id : nat;
  zoneA : nat;
  zoneB : nat;
  baseTravelTime : Q;
  seg_length : Q;
  seg_accessible : bool
}.

Record WeatherSnapshot := {
  temperature : Q;
  humidity : Q;
  windSpeed : Q;
  conditions : string;
  weather_timestamp : Z
}.

(** Modelled from the spec: the options of [findRoute] (section 4.4). *)
Record Options := {
  avoidCrowds : bool;
  accessibilityRequired : bool;
  maxSafetyRisk : Q;
  deadline : Z
}.

(** Modelled from the spec: the route of the data model (section 3). *)
Record Route := {
  route_zones : list nat;
  route_segments : list nat;
  totalDistance : Q;
  totalTime : Q;
  safetyScore : Q;
  crowdExposure : Q
}.

Inductive RouteResult := Found (r : Route) | RouteNotFound | RouteTimeout.

(** One step of a path: the segment taken and the zone it leads to. *)
Definition Hop : Type := Segment * nat.

(** The far end of a segment seen from [u]; the graph is undirected. *)
Definition otherEnd (sg : Segment) (u : nat) : option nat :=
  if Nat.eqb u (zoneA sg) then Some (zoneB sg)
  else if Nat.eqb u (zoneB sg) then Some (zoneA sg)
  else None.

(** Modelled from the spec: edges failing [accessibilityRequired] are
    excluded from the search entirely (section 4.4). *)
Definition usable (opts : Options) (sg : Segment) : bool :=
  negb (accessibilityRequired opts) || seg_accessible sg.

Definition visitedb (v : nat) (seen : list nat) : bool := existsb (Nat.eqb v) seen.

(** Modelled from the spec: the search space of the planner, all paths
    from [u] to [dst] over usable segments that enter no zone of [seen]
    and no zone twice, of at most [fuel] hops. *)
Fixpoint pathsFrom (fuel : nat) (opts : Options) (segs : list Segment)
    (seen : list nat) (u dst : nat) : list (list Hop) :=
  if Nat.eqb u dst then [[]]
  else match fuel with
       | O => []
       | S fuel' =>
           flat_map
             (fun sg =>
                match otherEnd sg u with
                | Some v =>
                    if usable opts sg && negb (visitedb v seen)
                    then List.map (cons (sg, v))
                           (pathsFrom fuel' opts segs (v :: seen) v dst)
                    else []
                | None => []
                end)
             segs
       end.

(** The paths the planner ranges over, stated on their own: from [u], a
    path either has arrived at [dst], or takes a usable segment of the
    graph to a zone not entered before and goes on from there. *)
Inductive SimplePath (opts : Options) (segs : list Segment) (dst : nat)
    : list nat -> nat -> list Hop -> Prop :=
| sp_arrived (seen : list nat) : SimplePath opts segs dst seen dst []
| sp_hop (seen : list nat) (u : nat) (sg : Segment) (v : nat) (p : list Hop) :
    u <> dst ->
    In sg segs ->
    otherEnd sg u = Some v ->
    usable opts sg = true ->
    ~ In v seen ->
    SimplePath opts segs dst (v :: seen) v p ->
    SimplePath opts segs dst seen u ((sg, v) :: p).

(** Lexicographic comparison of zone-id sequences. *)
Fixpoint lexCompare (a b : list nat) : comparison :=
  match a, b with
  | [], [] => Eq
  | [], _ :: _ => Lt
  | _ :: _, [] => Gt
  | x :: a', y :: b' =>
      match Nat.compare x y with
      | Eq => lexCompare a' b'
      | c => c
      end
  end.

Definition zonesOf (src : nat) (p : list Hop) : list nat := src :: List.map snd p.

Fixpoint sumQ (l : list Q) : Q :=
  match l with
  | [] => 0
  | x :: l' => (x + sumQ l')%Q
  end.

Definition maxLevel (a b : CrowdLevel) : CrowdLevel :=
  if level_rank a <? level_rank b then b else a.

(** A zone without a record counts as [Low]. *)
Definition levelOf (snapshot : gmap nat OccupancyRecord) (z : nat) : CrowdLevel :=
  match snapshot !! z with
  | Some r => level r
  | None => Low
  end.

Section RoutePlanner.

(** The specification gives the penalties by example and leaves the
    aggregation of the safety score open; the planner is stated for any
    choice of them. *)
Variable crowdPenalty : CrowdLevel -> Q.
Variable weatherPenalty : WeatherSnapshot -> Q.
Variable aggregateSafety : list Zone -> Q.

Variable zones : gmap nat Zone.
Variable segs : list Segment.

(** Modelled from the spec: [edgeCost] of the CostModel (section 4.3),
    absent from the source tree:
    cost = baseTravelTime x crowdPenalty(level) x weatherPenalty(conditions),
    with the level the higher one of the segment's two endpoints. *)
Definition edgeCost (snapshot : gmap nat OccupancyRecord) (w : WeatherSnapshot)
    (sg : Segment) : Q :=
  (baseTravelTime sg
   * crowdPenalty (maxLevel (levelOf snapshot (zoneA sg)) (levelOf snapshot (zoneB sg)))
   * weatherPenalty w)%Q.

Definition pathCost snapshot w (p : list Hop) : Q :=
  sumQ (List.map (fun h => edgeCost snapshot w (fst h)) p).

(** Modelled from the spec: the tie-break of section 4.4, cost first,
    then fewer hops, then the smaller zone-id sequence. *)
Definition pathCompare snapshot w (src : nat) (a b : list Hop) : comparison :=
  match (pathCost snapshot w a ?= pathCost snapshot w b)%Q with
  | Eq =>
      match Nat.compare (length a) (length b) with
      | Eq => lexCompare (zonesOf src a) (zonesOf src b)
      | c => c
      end
  | c => c
  end.

(** Modelled from the spec: the best of a list of paths; a later path
    replaces the current one only when it is strictly better. *)
Fixpoint pickBest snapshot w (src : nat) (best : list Hop) (l : list (list Hop))
    : list Hop :=
  match l with
  | [] => best
  | p :: l' =>
      match pathCompare snapshot w src p best with
      | Lt => pickBest snapshot w src p l'
      | _ => pickBest snapshot w src best l'
      end
  end.

(** Modelled from the spec: the route value of a path, with its zone
    and segment ids, total distance, total time (the cost), safety score
    and crowd exposure (sum of occupancy penalty x time per segment). *)
Definition mkRoute snapshot w (src : nat) (p : list Hop) : Route :=
  {| route_zones := zonesOf src p;
     route_segments := List.map (fun h => seg_id (fst h)) p;
     totalDistance := sumQ (List.map (fun h => seg_length (fst h)) p);
     totalTime := pathCost snapshot w p;
     safetyScore :=
       aggregateSafety (omap (fun z => zones !! z) (zonesOf src p));
     crowdExposure :=
       sumQ (List.map
               (fun h =>
                  (crowdPenalty
                     (maxLevel (levelOf snapshot (zoneA (fst h)))
                               (levelOf snapshot (zoneB (fst h))))
                   * baseTravelTime (fst h))%Q) p) |}.

(** Modelled from the spec: the candidate paths of a query.  A path
    that enters no zone twice has at most as many hops as there are
    segment ends. *)
Definition candidates (opts : Options) (src dst : nat) : list (list Hop) :=
  pathsFrom (2 * length segs)%nat opts segs [src] src dst.

(** Modelled from the spec: [findRoute(source, dest, options)] of the
    RoutePlanner (section 4.4), absent from the source tree.  The
    specification fixes the answer rather than the search, Dijkstra or A-star:
    the cheapest path over the usable segments under the costs of one
    snapshot, ties broken by fewer hops and then by the smaller zone-id
    sequence.  The model computes that answer from the candidate paths.
    [finishedAt] is the clock reading when the search completes: past
    the deadline the answer is [Timeout].  The options [avoidCrowds] and
    [maxSafetyRisk] are given no meaning by the specification and are not
    consulted. *)
Definition findRoute (snapshot : gmap nat OccupancyRecord) (w : WeatherSnapshot)
    (src dst : nat) (opts : Options) (finishedAt : Z) : RouteResult :=
  if deadline opts <? finishedAt then RouteTimeout
  else
    match zones !! src, zones !! dst with
    | Some _, Some _ =>
        match candidates opts src dst with
        | [] => RouteNotFound
        | p :: l => Found (mkRoute snapshot w src (pickBest snapshot w src p l))
        end
    | _, _ => RouteNotFound
    end.

End RoutePlanner.

(** ** A small venue to run the operations on *)

Definition examplePenalty (l : CrowdLevel) : Q :=
  match l with
  | Low => 1 | Medium => 13 # 10 | High => 18 # 10 | Critical => 3
  end.

Definition exampleWeatherPenalty (w : WeatherSnapshot) : Q := 1.

Definition exampleSafety (zs : list Zone) : Q :=
  inject_Z (fold_right Z.min 10 (List.map zone_safety zs)).

Definition exampleZones : gmap nat Zone :=
  list_to_map
    [ (0%nat, {| zone_name := "X"; category := Temple; zone_capacity := 1000;
                 zone_safety := 7; zone_accessible := true |});
      (1%nat, {| zone_name := "Y"; category := Ghat; zone_capacity := 2000;
                 zone_safety := 8; zone_accessible := true |});
      (2%nat, {| zone_name := "Z"; category := Camp; zone_capacity := 500;
                 zone_safety := 9; zone_accessible := true |}) ].

Definition exampleDirect : Segment :=
  {| seg_id := 0; zoneA := 0; zoneB := 1; baseTravelTime := 20;
     seg_length := 300; seg_accessible := true |}.

Definition exampleXZ : Segment :=
  {| seg_id := 1; zoneA := 0; zoneB := 2; baseTravelTime := 10;
     seg_length := 200; seg_accessible := true |}.

Definition exampleZY : Segment :=
  {| seg_id := 2; zoneA := 2; zoneB := 1; baseTravelTime := 10;
     seg_length := 200; seg_accessible := true |}.

(** X-Y directly in 20, or X-Z-Y in 10 + 10. *)
Definition exampleSegments : list Segment :=
  [exampleDirect; exampleXZ; exampleZY].

Definition exampleDetour : list Hop := [(exampleXZ, 2%nat); (exampleZY, 1%nat)].

Definition exampleRecord : OccupancyRecord :=
  {| zoneId := 0; count := 200; capacity := 1000; level := Low;
     confidence := 1; source := Measured; timestamp := 100 |}.

Definition exampleStore : gmap nat OccupancyRecord := {[ 0%nat := exampleRecord ]}.

Definition exampleWeather : WeatherSnapshot :=
  {| temperature := 32; humidity := 68; windSpeed := 12;
     conditions := "Partly Cloudy"; weather_timestamp := 100 |}.

Definition exampleOptions : Options :=
  {| avoidCrowds := true; accessibilityRequired := false;
     maxSafetyRisk := 1; deadline := 5 |}.

Definition exampleEmergency : Emergency :=
  {| em_type := MedicalEm; locationZone := 2; severity := SevHigh;
     status := Resolved; reportedAt := 10; resolvedAt := Some 40 |}.

Definition exampleBook : EmergencyBook :=
  {| book := {[ 7%nat := exampleEmergency ]}; audit := [(7%nat, Resolved, 40)] |}.

End Core.

(* ===================================================================== *)
(** * Part III: properties of the dashboard                              *)
(* ===================================================================== *)

Module DashboardFacts.
Import Dashboard.

Lemma run_snoc (p : Page) (es : list Event) (e : Event) :
  run p (es ++ [e])%list = step (run p es) e.
Proof. unfold run. now rewrite fold_left_app. Qed.

(** No event touches the data cells except the mount effect, which
    installs the literals. *)
Lemma step_holdsLiterals (p : Page) (e : Event) :
  holdsLiterals (ui p) -> holdsLiterals (ui (step p e)).
Proof.
  intros (Hc & He & Hr).
  destruct e; cbn [step]; try (split; [|split]; assumption).
  - repeat split; cbn; eauto.
  - unfold isLive. destruct (existsb _ _); [|split; [|split]; assumption].
    unfold simulationTick.
    destruct (100 <=? simulationProgress (ui p)); cbn; split; [|split| |split];
      assumption.
Qed.

Lemma run_holdsLiterals (es : list Event) (p : Page) :
  holdsLiterals (ui p) -> holdsLiterals (ui (run p es)).
Proof.
  revert p. induction es as [|e es IH]; intros p Hp; cbn; [assumption|].
  apply IH, step_holdsLiterals, Hp.
Qed.

Lemma initial_holdsLiterals : holdsLiterals (ui initialPage).
Proof. repeat split; cbn; auto. Qed.

Lemma literal_levels_derived (now : string) (zone : CrowdData) :
  In zone (mockCrowdData now) ->
  crowd_level zone = spec_band (occupancy_ratio zone).
Proof.
  cbn [mockCrowdData In].
  intros [<-|[<-|[<-|[<-|[<-|[]]]]]]; vm_compute; reflexivity.
Qed.

Lemma held_levels_derived (es : list Event) (zone : CrowdData) :
  In zone (crowdData (ui (run initialPage es))) ->
  crowd_level zone = spec_band (occupancy_ratio zone).
Proof.
  destruct (run_holdsLiterals es initialPage initial_holdsLiterals)
    as ([E|[now E]] & _); rewrite E; [intros []|].
  apply literal_levels_derived.
Qed.

Lemma spec_band_monotone (r1 r2 : Q) :
  (r1 <= r2)%Q -> level_le (spec_band r1) (spec_band r2).
Proof.
  intros Hle. unfold spec_band, level_le.
  assert (T : forall c, Qle_bool c r1 = true -> Qle_bool c r2 = true).
  { intros c Hc. apply Qle_bool_iff. apply Qle_bool_iff in Hc.
    eapply Qle_trans; eassumption. }
  destruct (Qle_bool 1 r1) eqn:E1; [rewrite (T _ E1); cbn; lia|].
  destruct (Qle_bool (8 # 10) r1) eqn:E2;
    [rewrite (T _ E2); destruct (Qle_bool 1 r2); cbn; lia|].
  destruct (Qle_bool (5 # 10) r1) eqn:E3;
    [rewrite (T _ E3); destruct (Qle_bool 1 r2), (Qle_bool (8 # 10) r2); cbn; lia|].
  destruct (Qle_bool 1 r2), (Qle_bool (8 # 10) r2), (Qle_bool (5 # 10) r2);
    cbn; lia.
Qed.

(** C1. In every state the page can reach, each zone record it holds has
    as its stored crowd level the band of its occupancy ratio
    current_occupancy / max_capacity under the entry thresholds
    (Critical at >= 1.0, High at >= 0.8, Medium at >= 0.5, Low below):
    the stored level never disagrees with the derivation. *)
Theorem stored_level_is_band_of_ratio (es : list Event) (zone : CrowdData) :
  In zone (crowdData (ui (run initialPage es))) ->
  crowd_level zone = spec_band (occupancy_ratio zone).
Proof. apply held_levels_derived. Qed.

Lemma stored_level_is_band_of_ratio_witness :
  In (mahakaleshwarTemple "2024-01-15T10:30:00.000Z")
     (crowdData (ui (run initialPage [Mount "2024-01-15T10:30:00.000Z"])))
  /\ crowd_level (mahakaleshwarTemple "2024-01-15T10:30:00.000Z")
     = spec_band (19 # 20).
Proof.
  assert (H : In (mahakaleshwarTemple "2024-01-15T10:30:00.000Z")
     (crowdData (ui (run initialPage [Mount "2024-01-15T10:30:00.000Z"]))))
    by (left; reflexivity).
  split; [exact H|].
  rewrite (stored_level_is_band_of_ratio _ _ H). reflexivity.
Defined.

(** C2. Among the zone records the page holds, the crowd level is
    monotone in the occupancy ratio: a record whose ratio is at most that
    of another has a level at most the other's, in the order
    Low < Medium < High < Critical. *)
Theorem level_monotone_in_ratio (es : list Event) (z1 z2 : CrowdData) :
  In z1 (crowdData (ui (run initialPage es))) ->
  In z2 (crowdData (ui (run initialPage es))) ->
  (occupancy_ratio z1 <= occupancy_ratio z2)%Q ->
  level_le (crowd_level z1) (crowd_level z2).
Proof.
  intros H1 H2 Hle.
  rewrite (held_levels_derived es z1 H1), (held_levels_derived es z2 H2).
  apply spec_band_monotone, Hle.
Qed.

Lemma level_monotone_in_ratio_witness :
  level_le
    (crowd_level (medicalCenterHub "2024-01-15T10:30:00.000Z"))
    (crowd_level (mahakaleshwarTemple "2024-01-15T10:30:00.000Z")).
Proof.
  apply (level_monotone_in_ratio [Mount "2024-01-15T10:30:00.000Z"]).
  - cbn. tauto.
  - cbn. tauto.
  - vm_compute. discriminate.
Defined.

(** The badge colour tells the four levels apart. *)
Lemma getCrowdLevelColor_distinct (a b : CrowdLevel) :
  getCrowdLevelColor (level_str a) = getCrowdLevelColor (level_str b) -> a = b.
Proof. destruct a, b; vm_compute; intros H; first [reflexivity | discriminate H]. Qed.

(** The tile class is the level's own for the three lower levels. *)
Lemma heatmapClass_lower_levels (zone : CrowdData) :
  match crowd_level zone with
  | Low => heatmapClass zone = "heatmap-low border-green-300"
  | Medium => heatmapClass zone = "heatmap-medium border-yellow-300"
  | High => heatmapClass zone = "heatmap-high border-red-300"
  | Critical => True
  end.
Proof. unfold heatmapClass. destruct (crowd_level zone); reflexivity || exact I. Qed.

(** C3. The map's heat overlay does not treat the four levels as distinct
    cases: a zone at the critical level falls into the final branch of
    the conditional and is drawn with the styling of the low level,
    without the pulse of a high zone, although its badge is coloured as
    critical by [getCrowdLevelColor]. *)
Theorem heatmap_draws_critical_as_low :
  crowd_level criticalZone = Critical /\
  List.map tile_class (mapTiles (setCrowdData [criticalZone] initialState))
    = ["heatmap-low border-green-300"] /\
  tile_class (renderZoneTile criticalZone) = "heatmap-low border-green-300" /\
  tile_class (renderZoneTile criticalZone) = tile_class (renderZoneTile lowZone) /\
  tile_pulse (renderZoneTile criticalZone) = false /\
  tile_badge_class (renderZoneTile criticalZone)
    = "bg-red-100 text-red-800 border-red-200" /\
  tile_badge_class (renderZoneTile lowZone)
    = "bg-green-100 text-green-800 border-green-200".
Proof. repeat split. Qed.

(** ** Routes *)

Lemma numeric_props (r : RouteData) (k : string) (q : Q) :
  getProp k (routeObject r) = Some (JsNum q) ->
  In k ["distance"; "estimated_time"; "safety_score"].
Proof.
  unfold routeObject. cbn [getProp In].
  repeat match goal with
         | |- context [String.eqb k ?c] =>
             destruct (String.eqb_spec k c) as [->|_]
         end;
    intros H; first [discriminate H | tauto].
Qed.

Lemma list_props (r : RouteData) (k : string) (l : list string) :
  getProp k (routeObject r) = Some (JsStrs l) ->
  k = "features" /\ l = features r.
Proof.
  unfold routeObject. cbn [getProp].
  repeat match goal with
         | |- context [String.eqb k ?c] =>
             destruct (String.eqb_spec k c) as [->|_]
         end;
    intros H; first [discriminate H | injection H as <-; split; reflexivity].
Qed.

Lemma no_spec_route (r : RouteData) : ~ carriesSpecRoute (routeObject r).
Proof.
  intros (kseq & kdist & ktime & ksafe & kexp & ids & d & t & sf & ex
          & Hnd & _ & Hd & Ht & Hsf & Hex).
  assert (Hincl : incl [kdist; ktime; ksafe; kexp]
                       ["distance"; "estimated_time"; "safety_score"]).
  { intros k [<-|[<-|[<-|[<-|[]]]]]; eapply numeric_props; eassumption. }
  pose proof (NoDup_incl_length Hnd Hincl) as Hlen. cbn in Hlen. lia.
Qed.

Lemma literal_features_not_zone_ids (r : RouteData) (f z : string) :
  In r mockRoutes -> In f (features r) ->
  In z ["1"; "2"; "3"; "4"; "5"] -> f <> z.
Proof.
  cbn [mockRoutes In].
  intros [<-|[<-|[<-|[<-|[]]]]]; cbn [features In];
    intros [<-|[<-|[<-|[]]]] [<-|[<-|[<-|[<-|[<-|[]]]]]]; discriminate.
Qed.

(** C7 fails as stated: the first route the mounted page holds has no
    key for a zone-id sequence next to four numbers; its only numbers are
    distance, estimated_time and safety_score. *)
Lemma mounted_route_is_not_spec_route :
  In mainPilgrimRoute
     (routes (ui (run initialPage [Mount "2024-01-15T10:30:00.000Z"])))
  /\ ~ carriesSpecRoute
        (routeObject mainPilgrimRoute).
Proof. split; [left; reflexivity | apply no_spec_route]. Qed.

(** C7, amended. Every route the page holds is an object with exactly
    the keys id, name, type, distance, estimated_time, safety_score,
    features and current_traffic.  It carries a distance, an estimated
    time and a safety score; its only list is [features], whose entries
    are not ids of zones the page holds; it has no fourth number, hence
    neither a zone-id sequence nor a crowd-exposure integral. *)
Theorem route_carries_dashboard_fields (es : list Event) (r : RouteData) :
  In r (routes (ui (run initialPage es))) ->
  List.map fst (routeObject r)
    = ["id"; "name"; "type"; "distance"; "estimated_time"; "safety_score";
       "features"; "current_traffic"] /\
  getProp "distance" (routeObject r) = Some (JsNum (distance r)) /\
  getProp "estimated_time" (routeObject r)
    = Some (JsNum (inject_Z (estimated_time r))) /\
  getProp "safety_score" (routeObject r) = Some (JsNum (route_safety_score r)) /\
  (forall k q, getProp k (routeObject r) = Some (JsNum q) ->
               In k ["distance"; "estimated_time"; "safety_score"]) /\
  (forall k l, getProp k (routeObject r) = Some (JsStrs l) ->
               k = "features" /\
               forall f zone, In f l ->
                 In zone (crowdData (ui (run initialPage es))) ->
                 f <> zone_id zone) /\
  ~ carriesSpecRoute (routeObject r).
Proof.
  intros Hr.
  repeat (split; [reflexivity|]).
  split; [intros k q; apply numeric_props|].
  split; [|apply no_spec_route].
  intros k l Hk. destruct (list_props r k l Hk) as [-> ->].
  split; [reflexivity|]. intros f zone Hf Hz.
  destruct (run_holdsLiterals es initialPage initial_holdsLiterals)
    as (Hc & _ & Hrt).
  destruct Hrt as [E|E]; rewrite E in Hr; [destruct Hr|].
  destruct Hc as [E'|[now E']]; rewrite E' in Hz; [destruct Hz|].
  apply (literal_features_not_zone_ids r f (zone_id zone) Hr Hf).
  change ["1"; "2"; "3"; "4"; "5"] with (List.map zone_id (mockCrowdData now)).
  apply in_map, Hz.
Qed.

Lemma route_carries_dashboard_fields_witness :
  getProp "crowd_exposure"
    (routeObject mainPilgrimRoute)
  = None
  /\ ~ carriesSpecRoute
        (routeObject mainPilgrimRoute).
Proof.
  split; [reflexivity|].
  apply (route_carries_dashboard_fields [Mount "2024-01-15T10:30:00.000Z"]).
  left; reflexivity.
Defined.

(** ** The simulation *)

Lemma isLive_clearInterval (i : nat) (p : Page) :
  isLive i (clearInterval i p) = false.
Proof.
  unfold isLive, clearInterval; cbn.
  induction (intervals p) as [|j l IH]; cbn; [reflexivity|].
  destruct (Nat.eqb_spec j i) as [->|Hne]; cbn; [exact IH|].
  rewrite IH. destruct (Nat.eqb_spec i j); [congruence|reflexivity].
Qed.

Lemma isLive_withUi (f : DashboardState -> DashboardState) (i : nat) (p : Page) :
  isLive i (withUi f p) = isLive i p.
Proof. reflexivity. Qed.

(** Progress is an even number between 0 and 100 in every reachable
    state; evenness is what keeps [prev + 2] from stepping over 100. *)
Lemma step_progress_even (p : Page) (e : Event) :
  (exists k, simulationProgress (ui p) = 2 * k /\ 0 <= k <= 50) ->
  exists k, simulationProgress (ui (step p e)) = 2 * k /\ 0 <= k <= 50.
Proof.
  intros (k & Hk & Hr).
  destruct e; cbn [step]; try (exists k; split; assumption).
  - exists 0. cbn. lia.
  - destruct (isLive i p); [|exists k; split; assumption].
    unfold simulationTick. destruct (Z.leb_spec 100 (simulationProgress (ui p))).
    + exists 50. cbn. lia.
    + exists (k + 1). cbn. lia.
  - exists 0. cbn. lia.
Qed.

Lemma run_progress_even (es : list Event) (p : Page) :
  (exists k, simulationProgress (ui p) = 2 * k /\ 0 <= k <= 50) ->
  exists k, simulationProgress (ui (run p es)) = 2 * k /\ 0 <= k <= 50.
Proof.
  revert p. induction es as [|e es IH]; intros p Hp; cbn; [assumption|].
  apply IH, step_progress_even, Hp.
Qed.

(** C8. After every sequence of events the simulation progress lies in
    [0, 100].  Starting sets it to 0 with the running flag set and a new
    interval live; a firing of a live interval adds 2 while the progress
    is below 100; a firing that finds it at 100 keeps it at 100, clears
    that interval and clears the running flag; a cleared interval fires
    no more; reset puts the progress to 0 and clears the running flag. *)
Theorem simulation_progress_in_range (es : list Event) :
  let p := run initialPage es in
  0 <= simulationProgress (ui p) <= 100 /\
  (simulationProgress (ui (step p StartSimulation)) = 0 /\
   isSimulationRunning (ui (step p StartSimulation)) = true /\
   isLive (nextInterval p) (step p StartSimulation) = true) /\
  (forall i, isLive i p = true ->
     (simulationProgress (ui p) < 100 ->
        simulationProgress (ui (step p (IntervalFires i)))
          = simulationProgress (ui p) + 2 /\
        isLive i (step p (IntervalFires i)) = true /\
        isSimulationRunning (ui (step p (IntervalFires i)))
          = isSimulationRunning (ui p)) /\
     (simulationProgress (ui p) = 100 ->
        simulationProgress (ui (step p (IntervalFires i))) = 100 /\
        isLive i (step p (IntervalFires i)) = false /\
        isSimulationRunning (ui (step p (IntervalFires i))) = false)) /\
  (forall i, isLive i p = false -> step p (IntervalFires i) = p) /\
  (simulationProgress (ui (step p ResetSimulation)) = 0 /\
   isSimulationRunning (ui (step p ResetSimulation)) = false).
Proof.
  intros p.
  destruct (run_progress_even es initialPage) as (k & Hk & Hr).
  { exists 0. cbn. lia. }
  fold p in Hk.
  split; [lia|].
  split.
  { cbn [step]. unfold startSimulation, setInterval, isLive. cbn.
    rewrite Nat.eqb_refl. auto. }
  split.
  { intros i Hi. cbn [step]. rewrite Hi. unfold simulationTick. split.
    - intros Hlt. destruct (Z.leb_spec 100 (simulationProgress (ui p))); [lia|].
      rewrite isLive_withUi. auto.
    - intros Hfull. rewrite Hfull. cbn [Z.leb Z.compare Pos.compare Pos.compare_cont].
      rewrite !isLive_withUi, isLive_clearInterval. auto. }
  split.
  { intros i Hi. cbn [step]. rewrite Hi. reflexivity. }
  cbn. auto.
Qed.

Lemma simulation_progress_in_range_witness :
  simulationProgress
    (ui (run initialPage [ChooseScenario "1"; StartSimulation; IntervalFires 0;
                          IntervalFires 0]))
  = 4.
Proof.
  pose proof (simulation_progress_in_range
                [ChooseScenario "1"; StartSimulation; IntervalFires 0])
    as (_ & _ & Hfire & _).
  destruct (Hfire 0%nat eq_refl) as [Hlt _].
  destruct Hlt as (Hp & _); [vm_compute; reflexivity|].
  exact Hp.
Defined.

(** ** Scenario independence *)

Lemma alike_progress (p q : Page) :
  alike p q -> simulationProgress (ui p) = simulationProgress (ui q).
Proof.
  intros (H & _). unfold sameButScenario in H.
  apply (f_equal simulationProgress) in H. exact H.
Qed.

Lemma step_alike (p q : Page) (e : Event) :
  alike p q -> alike (step p e) (step q e).
Proof.
  destruct p as [[c1 e1 w1 r1 l1 d1 y1 sc1 pr1 ru1 m1 n1] iv1 nx1].
  destruct q as [[c2 e2 w2 r2 l2 d2 y2 sc2 pr2 ru2 m2 n2] iv2 nx2].
  unfold alike, sameButScenario. cbn. intros (H & -> & ->).
  injection H as -> -> -> -> -> -> -> -> -> -> ->.
  destruct e; cbn; try (repeat split; reflexivity).
  unfold isLive; cbn. destruct (existsb _ iv2); [|repeat split; reflexivity].
  unfold simulationTick; cbn. destruct (100 <=? pr2); cbn; repeat split; reflexivity.
Qed.

Lemma progressAlong_alike (es : list Event) (p q : Page) :
  alike p q -> progressAlong p es = progressAlong q es.
Proof.
  revert p q. induction es as [|e es IH]; intros p q H; cbn; [reflexivity|].
  f_equal; [apply alike_progress, step_alike, H | apply IH, step_alike, H].
Qed.

Lemma run_repeat_snoc (p : Page) (e : Event) (k : nat) :
  run p (repeat e (S k)) = step (run p (repeat e k)) e.
Proof.
  rewrite <- run_snoc. f_equal.
  induction k as [|k IH]; cbn; [reflexivity|]. f_equal. exact IH.
Qed.

(** One interval, started at progress 0: after [k] firings the progress
    is min(2k, 100); the interval is live and the flag set up to the 50th
    firing, and the 51st clears both. *)
Lemma firings_shape (p0 : Page) (k : nat) :
  simulationProgress (ui p0) = 0 ->
  isSimulationRunning (ui p0) = true ->
  intervals p0 = [0%nat] ->
  let q := run p0 (repeat (IntervalFires 0) k) in
  simulationProgress (ui q) = Z.min (2 * Z.of_nat k) 100 /\
  isSimulationRunning (ui q) = (k <=? 50)%nat /\
  intervals q = (if (k <=? 50)%nat then [0%nat] else []).
Proof.
  intros H0 H1 H2. induction k as [|k IH]; [cbn; auto|].
  cbv zeta in *. rewrite run_repeat_snoc.
  destruct IH as (Hp & Hr & Hi).
  set (q := run p0 (repeat (IntervalFires 0) k)) in *. clearbody q.
  cbn [step]. unfold isLive. rewrite Hi.
  destruct (Nat.leb_spec k 50) as [Hk|Hk].
  - cbn [existsb Nat.eqb orb]. unfold simulationTick. rewrite Hp.
    destruct (Z.leb_spec 100 (Z.min (2 * Z.of_nat k) 100)) as [Hfull|Hlt];
      cbn -[Z.min Z.mul Z.of_nat Nat.leb]; rewrite ?Hp, ?Hr, ?Hi;
      cbn -[Z.min Z.mul Z.of_nat Nat.leb];
      destruct (Nat.leb_spec (S k) 50); try lia; repeat split; lia.
  - cbn [existsb]. rewrite Hp, Hr, Hi.
    destruct (Nat.leb_spec (S k) 50); [lia|].
    repeat split; lia.
Qed.

Lemma simulated_shape (now sid : string) (k : nat) :
  let p := simulated now sid k in
  simulationProgress (ui p) = Z.min (2 * Z.of_nat k) 100 /\
  isSimulationRunning (ui p) = (k <=? 50)%nat /\
  intervals p = (if (k <=? 50)%nat then [0%nat] else []).
Proof.
  unfold simulated. cbn [run fold_left].
  apply (firings_shape
           (step (step (step initialPage (Mount now)) (ChooseScenario sid))
                 StartSimulation)); reflexivity.
Qed.

(** C9. The simulation does not read the selected scenario.  From any
    page, for any two scenario ids, starting the simulation and letting
    any events follow yields the same sequence of progress values.  On
    the mounted page the progress after k firings is min(2k, 100) for
    every scenario, whatever its declared duration (30, 45, 20, 35): the
    running flag is still set after 50 firings and cleared by the 51st. *)
Theorem progress_independent_of_scenario
    (p : Page) (sc1 sc2 : string) (es : list Event) (now : string) (k : nat) :
  progressAlong (step p (ChooseScenario sc1)) (StartSimulation :: es)
    = progressAlong (step p (ChooseScenario sc2)) (StartSimulation :: es) /\
  simulationProgress (ui (simulated now sc1 k)) = Z.min (2 * Z.of_nat k) 100 /\
  simulationProgress (ui (simulated now sc1 k))
    = simulationProgress (ui (simulated now sc2 k)) /\
  List.map duration simulationScenarios = [30; 45; 20; 35] /\
  Forall (fun sc =>
            isSimulationRunning (ui (simulated now (scenario_id sc) 50)) = true /\
            isSimulationRunning (ui (simulated now (scenario_id sc) 51)) = false)
         simulationScenarios.
Proof.
  split.
  { apply progressAlong_alike.
    destruct p as [[c1 e1 w1 r1 l1 d1 y1 s1 pr1 ru1 m1 n1] iv1 nx1].
    repeat split. }
  split; [apply simulated_shape|].
  split.
  { destruct (simulated_shape now sc1 k) as (-> & _).
    destruct (simulated_shape now sc2 k) as (-> & _). reflexivity. }
  split; [reflexivity|].
  apply Forall_forall. intros sc _.
  destruct (simulated_shape now (scenario_id sc) 50) as (_ & -> & _).
  destruct (simulated_shape now (scenario_id sc) 51) as (_ & -> & _).
  split; reflexivity.
Qed.

(** ** Emergencies *)

(** The page has no handler that changes an emergency: after the mount
    effect has installed the list, every event leaves it as it is. *)
Lemma step_keeps_emergencies (p : Page) (e : Event) :
  (forall now, e <> Mount now) -> emergencies (ui (step p e)) = emergencies (ui p).
Proof.
  intros Hm. destruct e; cbn [step]; try reflexivity.
  - exfalso. apply (Hm now). reflexivity.
  - destruct (isLive i p); [|reflexivity]. unfold simulationTick.
    destruct (100 <=? simulationProgress (ui p)); reflexivity.
Qed.

Lemma counter_is_countActive (l : list Emergency) :
  Z.of_nat (length (List.filter
                      (fun e => String.eqb (status_str (status e)) "active") l))
  = countActive l.
Proof.
  induction l as [|e l IH]; [reflexivity|].
  cbn [List.filter countActive]. destruct (status e); cbn -[Z.of_nat Z.add];
    rewrite <- IH; cbn [length]; lia.
Qed.

Lemma countActive_drop_responding (l : list Emergency) :
  countActive
    (List.filter (fun x => negb (String.eqb (status_str (status x)) "responding")) l)
  = countActive l.
Proof.
  induction l as [|x l IH]; [reflexivity|].
  cbn [List.filter]. destruct (status x) eqn:E; simpl; rewrite ?E, ?IH; reflexivity.
Qed.

(** C10. The "Emergencies" counter is the number of emergencies whose
    status is exactly active.  An emergency that is responding appears
    in the alert banner, which takes active and responding ones, but is
    not among the emergencies the counter counts. *)
Theorem emergencies_counter_counts_active_only
    (s : DashboardState) (e : Emergency) :
  emergenciesCounter s = countActive (emergencies s) /\
  (In e (emergencies s) -> status e = Responding ->
   In e (alertBanner s) /\ ~ In e (activeEmergencies s) /\
   emergenciesCounter s
     = emergenciesCounter
         (setEmergencies
            (List.filter (fun x => negb (String.eqb (status_str (status x)) "responding"))
                         (emergencies s)) s)).
Proof.
  split; [apply counter_is_countActive|].
  intros Hin Hst. split; [|split].
  - apply filter_In. split; [exact Hin|]. rewrite Hst. reflexivity.
  - intros H. apply filter_In in H. destruct H as [_ H]. rewrite Hst in H.
    discriminate H.
  - unfold emergenciesCounter, activeEmergencies. cbn [emergencies setEmergencies].
    rewrite !counter_is_countActive, countActive_drop_responding. reflexivity.
Qed.

Lemma emergencies_counter_counts_active_only_witness :
  emergenciesCounter (mountEffect "2024-01-15T10:30:00.000Z" initialState) = 1
  /\ length (alertBanner (mountEffect "2024-01-15T10:30:00.000Z" initialState))
     = 2%nat
  /\ In medicalEmergency
        (alertBanner (mountEffect "2024-01-15T10:30:00.000Z" initialState)).
Proof.
  split; [reflexivity|]. split; [reflexivity|].
  apply (emergencies_counter_counts_active_only
           (mountEffect "2024-01-15T10:30:00.000Z" initialState)
           medicalEmergency).
  - left; reflexivity.
  - reflexivity.
Defined.

End DashboardFacts.

(* ===================================================================== *)
(** * Part IV: properties of the core                                    *)
(* ===================================================================== *)

Module CoreFacts.
Import Core.

(** ** OccupancyState *)

(** C5. An update whose timestamp is not newer than the one stored for
    its zone is answered with StaleData and changes nothing: the store
    after the call is the store before it, so the zone's record, and
    every other zone's, is the same. *)
Theorem stale_update_is_noop
    (zones : gmap nat Zone) (store : gmap nat OccupancyRecord)
    (z : nat) (cnt : Z) (src : Source) (ts : Z) (r : OccupancyRecord) :
  store !! z = Some r ->
  ts <= timestamp r ->
  applyUpdate zones z cnt src ts store = (Rejected StaleData, store) /\
  snd (applyUpdate zones z cnt src ts store) !! z = Some r /\
  forall z', snd (applyUpdate zones z cnt src ts store) !! z' = store !! z'.
Proof.
  intros Hr Hts. unfold applyUpdate. rewrite Hr.
  destruct (Z.leb_spec ts (timestamp r)); [|lia].
  cbn. auto.
Qed.

(** A newer update is accepted and recorded, so the rejection above is
    not the only behaviour of [applyUpdate]. *)
Lemma fresh_update_is_recorded
    (zones : gmap nat Zone) (store : gmap nat OccupancyRecord)
    (z : nat) (cnt : Z) (src : Source) (ts : Z) (r : OccupancyRecord) (zn : Zone) :
  store !! z = Some r -> zones !! z = Some zn -> timestamp r < ts ->
  fst (applyUpdate zones z cnt src ts store) = Accepted /\
  exists r', snd (applyUpdate zones z cnt src ts store) !! z = Some r' /\
             count r' = cnt /\ timestamp r' = ts /\ source r' = src /\
             level r' = hystereticLevel (level r) cnt (zone_capacity zn).
Proof.
  intros Hr Hz Hts. unfold applyUpdate. rewrite Hr, Hz.
  destruct (Z.leb_spec ts (timestamp r)); [lia|].
  cbn. split; [reflexivity|]. eexists. rewrite lookup_insert_eq.
  split; [reflexivity|]. cbn. auto.
Qed.

(** ** Emergency lifecycle *)

(** C4. A status is one of Reported, Responding, Resolved.  Whatever
    status is asked for, the emergency's status afterwards is the old one
    or the one asked for and is not earlier in the order
    Reported -> Responding -> Resolved; a resolved emergency stays as it
    is; a request for an earlier status, in particular Reported for a
    resolved emergency, is rejected as InvalidInput and changes nothing. *)
Theorem emergency_status_moves_forward
    (eid : nat) (new : EmergencyStatus) (now : Z)
    (b : EmergencyBook) (e : Emergency) :
  book b !! eid = Some e ->
  (status e = Reported \/ status e = Responding \/ status e = Resolved) /\
  (exists e', book (snd (setStatus eid new now b)) !! eid = Some e' /\
              status_rank (status e) <= status_rank (status e') /\
              (status e' = status e \/ status e' = new)) /\
  (status e = Resolved -> snd (setStatus eid new now b) = b) /\
  (status_rank new < status_rank (status e) ->
   setStatus eid new now b = (Rejected InvalidInput, b)) /\
  (status e = Resolved -> new = Reported ->
   setStatus eid new now b = (Rejected InvalidInput, b)) /\
  (status_rank (status e) < status_rank new ->
   fst (setStatus eid new now b) = Accepted /\
   exists e', book (snd (setStatus eid new now b)) !! eid = Some e' /\
              status e' = new /\
              audit (snd (setStatus eid new now b)) = (eid, new, now) :: audit b).
Proof.
  intros He. unfold setStatus. rewrite He.
  split; [destruct (status e); auto|].
  destruct (Z.ltb_spec (status_rank new) (status_rank (status e))) as [Hb|Hf].
  { split; [exists e; cbn; split; [exact He|split; [lia|auto]]|].
    split; [reflexivity|]. split; [reflexivity|]. split; [reflexivity|]. lia. }
  destruct (Z.eqb_spec (status_rank new) (status_rank (status e))) as [Hs|Hn].
  { split; [exists e; cbn; split; [exact He|split; [lia|auto]]|].
    split; [reflexivity|]. split; [lia|].
    split; [intros H1 H2; rewrite H1, H2 in Hs; discriminate Hs|lia]. }
  split.
  { exists (withStatus e new now). cbn. rewrite lookup_insert_eq.
    split; [reflexivity|]. split; [lia|auto]. }
  split.
  { intros H1. rewrite H1 in *. destruct new; cbn in *; lia. }
  split; [lia|].
  split.
  { intros H1 H2. rewrite H1, H2 in Hf. cbn in Hf. lia. }
  intros _. cbn. split; [reflexivity|].
  exists (withStatus e new now). rewrite lookup_insert_eq. auto.
Qed.

(** ** RoutePlanner: the candidate paths *)

Lemma visitedb_false (v : nat) (seen : list nat) :
  visitedb v seen = false <-> ~ In v seen.
Proof.
  unfold visitedb. induction seen as [|x l IH]; cbn; [tauto|].
  destruct (Nat.eqb_spec v x) as [->|Hne]; cbn.
  - split; [discriminate|]. intros H; exfalso; apply H; auto.
  - rewrite IH. split; [intros H [E|Hin]; [congruence|tauto] | tauto].
Qed.

Lemma pathsFrom_sound (opts : Options) (segs : list Segment) (dst : nat)
    (fuel : nat) (seen : list nat) (u : nat) (p : list Hop) :
  In p (pathsFrom fuel opts segs seen u dst) -> SimplePath opts segs dst seen u p.
Proof.
  revert seen u p. induction fuel as [|fuel IH]; intros seen u p; cbn [pathsFrom];
    destruct (Nat.eqb_spec u dst) as [->|Hne].
  - intros [<-|[]]. constructor.
  - intros [].
  - intros [<-|[]]. constructor.
  - intros Hin. apply in_flat_map in Hin. destruct Hin as (sg & Hsg & Hin).
    destruct (otherEnd sg u) as [v|] eqn:Ho; [|destruct Hin].
    destruct (usable opts sg) eqn:Hu; [|destruct Hin].
    destruct (visitedb v seen) eqn:Hv; [destruct Hin|]. cbn in Hin.
    apply in_map_iff in Hin. destruct Hin as (p' & <- & Hp').
    apply sp_hop; auto. now apply visitedb_false.
Qed.

Lemma pathsFrom_complete (opts : Options) (segs : list Segment) (dst : nat)
    (seen : list nat) (u : nat) (p : list Hop) :
  SimplePath opts segs dst seen u p ->
  forall fuel, (length p <= fuel)%nat -> In p (pathsFrom fuel opts segs seen u dst).
Proof.
  induction 1 as [seen|seen u sg v p Hne Hsg Ho Hu Hv Hp IH]; intros fuel Hlen.
  - destruct fuel; cbn [pathsFrom]; rewrite Nat.eqb_refl; left; reflexivity.
  - destruct fuel as [|fuel]; [cbn in Hlen; lia|]. cbn [pathsFrom].
    destruct (Nat.eqb_spec u dst); [contradiction|].
    apply in_flat_map. exists sg. split; [exact Hsg|].
    rewrite Ho, Hu. apply visitedb_false in Hv. rewrite Hv. cbn.
    apply in_map. apply IH. cbn in Hlen. lia.
Qed.

(** The zones a simple path enters are pairwise distinct and new. *)
Lemma SimplePath_targets (opts : Options) (segs : list Segment) (dst : nat)
    (seen : list nat) (u : nat) (p : list Hop) :
  SimplePath opts segs dst seen u p ->
  List.NoDup (List.map snd p) /\ forall v, In v (List.map snd p) -> ~ In v seen.
Proof.
  induction 1 as [seen|seen u sg v p Hne Hsg Ho Hu Hv Hp [IHn IHd]]; cbn.
  - split; [constructor | intros v []].
  - split.
    + constructor; [|exact IHn]. intros Hin. apply (IHd v Hin). left; reflexivity.
    + intros x [<-|Hin]; [exact Hv|]. intros Hs. apply (IHd x Hin). right; exact Hs.
Qed.

Lemma SimplePath_targets_are_ends (opts : Options) (segs : list Segment) (dst : nat)
    (seen : list nat) (u : nat) (p : list Hop) :
  SimplePath opts segs dst seen u p ->
  incl (List.map snd p) (flat_map (fun sg => [zoneA sg; zoneB sg]) segs).
Proof.
  induction 1 as [seen|seen u sg v p Hne Hsg Ho Hu Hv Hp IH]; cbn.
  - intros x [].
  - intros x [<-|Hin]; [|apply IH, Hin].
    apply in_flat_map. exists sg. split; [exact Hsg|].
    unfold otherEnd in Ho.
    destruct (Nat.eqb u (zoneA sg)); [injection Ho as <-; cbn; auto|].
    destruct (Nat.eqb u (zoneB sg)); [injection Ho as <-; cbn; auto|discriminate].
Qed.

Lemma SimplePath_length (opts : Options) (segs : list Segment) (dst : nat)
    (seen : list nat) (u : nat) (p : list Hop) :
  SimplePath opts segs dst seen u p -> (length p <= 2 * length segs)%nat.
Proof.
  intros H.
  destruct (SimplePath_targets _ _ _ _ _ _ H) as [Hnd _].
  pose proof (NoDup_incl_length Hnd (SimplePath_targets_are_ends _ _ _ _ _ _ H)) as L.
  rewrite length_map in L.
  assert (E : forall l : list Segment,
             length (flat_map (fun sg => [zoneA sg; zoneB sg]) l) = (2 * length l)%nat).
  { induction l as [|x l IHl]; cbn [flat_map length app]; [reflexivity|].
    rewrite IHl. lia. }
  rewrite E in L. exact L.
Qed.

(** The candidates of a query are exactly its simple paths. *)
Lemma candidates_spec (segs : list Segment) (opts : Options) (src dst : nat)
    (p : list Hop) :
  In p (candidates segs opts src dst) <-> SimplePath opts segs dst [src] src p.
Proof.
  unfold candidates. split; [apply pathsFrom_sound|].
  intros H. apply pathsFrom_complete; [exact H|].
  eapply SimplePath_length; exact H.
Qed.

(** ** RoutePlanner: the order on paths *)

Lemma lexCompare_refl (a : list nat) : lexCompare a a = Eq.
Proof. induction a as [|x a IH]; cbn; [reflexivity|]. now rewrite Nat.compare_refl. Qed.

Lemma lexCompare_eq (a b : list nat) : lexCompare a b = Eq -> a = b.
Proof.
  revert b. induction a as [|x a IH]; intros [|y b]; cbn; try discriminate; auto.
  destruct (Nat.compare_spec x y) as [->|Hxy|Hxy]; try discriminate.
  intros Hab. f_equal. apply IH, Hab.
Qed.

Lemma lexCompare_antisym (a b : list nat) :
  lexCompare b a = CompOpp (lexCompare a b).
Proof.
  revert b. induction a as [|x a IH]; intros [|y b]; cbn; try reflexivity.
  rewrite (Nat.compare_antisym x y).
  destruct (Nat.compare x y); cbn; auto.
Qed.

Lemma lexCompare_lt_trans (a b c : list nat) :
  lexCompare a b = Lt -> lexCompare b c = Lt -> lexCompare a c = Lt.
Proof.
  revert b c. induction a as [|x a IH]; intros [|y b] [|z c]; cbn;
    try discriminate; auto.
  destruct (Nat.compare_spec x y) as [->|Hxy|Hxy]; try discriminate.
  - destruct (Nat.compare_spec y z); try discriminate; auto.
    intros H1 H2. eapply IH; eassumption.
  - intros _. destruct (Nat.compare_spec y z) as [->|Hyz|Hyz]; try discriminate.
    + intros _. destruct (Nat.compare_spec x z); [lia|reflexivity|lia].
    + intros _. destruct (Nat.compare_spec x z); [lia|reflexivity|lia].
Qed.

Section PathOrder.

Variable crowdPenalty : CrowdLevel -> Q.
Variable weatherPenalty : WeatherSnapshot -> Q.
Variable snapshot : gmap nat OccupancyRecord.
Variable w : WeatherSnapshot.
Variable src : nat.

Let cost := pathCost crowdPenalty weatherPenalty snapshot w.
Let cmp := pathCompare crowdPenalty weatherPenalty snapshot w src.
Let best := pickBest crowdPenalty weatherPenalty snapshot w src.

Lemma pathCompare_Lt_iff (a b : list Hop) :
  cmp a b = Lt <->
  (cost a < cost b)%Q \/
  ((cost a == cost b)%Q /\
   ((length a < length b)%nat \/
    (length a = length b /\ lexCompare (zonesOf src a) (zonesOf src b) = Lt))).
Proof.
  unfold cmp, pathCompare. fold (cost a) (cost b).
  destruct (Qcompare_spec (cost a) (cost b)) as [He|Hl|Hg].
  - destruct (Nat.compare_spec (length a) (length b)) as [Hn|Hn|Hn].
    + split; [intros H; right; auto|].
      intros [H|(_ & [H|(_ & H)])]; [lra|lia|exact H].
    + split; [intros _; right; auto|reflexivity].
    + split; [discriminate|]. intros [H|(_ & [H|(H & _)])]; [lra|lia|lia].
  - split; [intros _; left; exact Hl|reflexivity].
  - split; [discriminate|]. intros [H|(H & _)]; lra.
Qed.

Lemma pathCompare_Eq_iff (a b : list Hop) :
  cmp a b = Eq <->
  (cost a == cost b)%Q /\ length a = length b /\ zonesOf src a = zonesOf src b.
Proof.
  unfold cmp, pathCompare. fold (cost a) (cost b).
  destruct (Qcompare_spec (cost a) (cost b)) as [He|Hl|Hg].
  - destruct (Nat.compare_spec (length a) (length b)) as [Hn|Hn|Hn].
    + split; [intros H; auto using lexCompare_eq|].
      intros (_ & _ & ->). apply lexCompare_refl.
    + split; [discriminate|]. intros (_ & H & _). lia.
    + split; [discriminate|]. intros (_ & H & _). lia.
  - split; [discriminate|]. intros (H & _). lra.
  - split; [discriminate|]. intros (H & _). lra.
Qed.

Lemma pathCompare_antisym (a b : list Hop) : cmp b a = CompOpp (cmp a b).
Proof.
  unfold cmp, pathCompare. fold (cost a) (cost b).
  rewrite <- (Qcompare_antisym (cost a) (cost b)).
  destruct (cost a ?= cost b)%Q; cbn [CompOpp]; try reflexivity.
  rewrite (Nat.compare_antisym (length a) (length b)).
  destruct (Nat.compare (length a) (length b)); cbn [CompOpp]; try reflexivity.
  apply lexCompare_antisym.
Qed.

Lemma pathCompare_lt_trans (a b c : list Hop) :
  cmp a b = Lt -> cmp b c = Lt -> cmp a c = Lt.
Proof.
  rewrite !pathCompare_Lt_iff.
  intros [H1|(E1 & H1)] [H2|(E2 & H2)].
  - left; lra.
  - left; lra.
  - left; lra.
  - right. split; [lra|].
    destruct H1 as [H1|(L1 & H1)], H2 as [H2|(L2 & H2)]; try (left; lia).
    right. split; [lia|]. eapply lexCompare_lt_trans; eassumption.
Qed.

Lemma pathCompare_eq_lt (a b c : list Hop) :
  cmp a b = Eq -> cmp a c = Lt -> cmp b c = Lt.
Proof.
  rewrite pathCompare_Eq_iff, !pathCompare_Lt_iff.
  intros (E & L & Zs) [H|(E' & H)]; [left; lra|].
  right. split; [lra|]. rewrite <- L, <- Zs. exact H.
Qed.

Lemma pathCompare_irrefl (a : list Hop) : cmp a a <> Lt.
Proof.
  intros H. apply pathCompare_Lt_iff in H.
  destruct H as [H|(_ & [H|(_ & H)])]; [lra|lia|].
  rewrite lexCompare_refl in H. discriminate H.
Qed.

Lemma pickBest_in (l : list (list Hop)) (b : list Hop) : In (best b l) (b :: l).
Proof.
  unfold best. revert b. induction l as [|p l IH]; intros b; cbn [pickBest].
  - left; reflexivity.
  - destruct (pathCompare _ _ _ _ _ p b);
      [destruct (IH b) | destruct (IH p) | destruct (IH b)]; cbn; auto.
Qed.

(** No path of the list is strictly better than the one picked. *)
Lemma pickBest_min (l : list (list Hop)) (b p : list Hop) :
  In p (b :: l) -> cmp p (best b l) <> Lt.
Proof.
  unfold best. revert b p. induction l as [|p0 l IH]; intros b p Hin; cbn [pickBest].
  - destruct Hin as [<-|[]]. apply pathCompare_irrefl.
  - fold (cmp p0 b). destruct (cmp p0 b) eqn:E.
    + destruct Hin as [<-|[<-|Hin]].
      * apply IH. left; reflexivity.
      * intros Hlt. apply (IH b b (or_introl eq_refl)).
        eapply pathCompare_eq_lt; [exact E|exact Hlt].
      * apply IH. right; exact Hin.
    + destruct Hin as [<-|[<-|Hin]].
      * intros Hlt. apply (IH p0 p0 (or_introl eq_refl)).
        eapply pathCompare_lt_trans; [exact E|exact Hlt].
      * apply IH. left; reflexivity.
      * apply IH. right; exact Hin.
    + destruct Hin as [<-|[<-|Hin]].
      * apply IH. left; reflexivity.
      * intros Hlt. apply (IH b b (or_introl eq_refl)).
        assert (E' : cmp b p0 = Lt) by (rewrite pathCompare_antisym, E; reflexivity).
        eapply pathCompare_lt_trans; [exact E'|exact Hlt].
      * apply IH. right; exact Hin.
Qed.

End PathOrder.

(** ** RoutePlanner: the answer *)

Section RoutePlannerFacts.

Variable crowdPenalty : CrowdLevel -> Q.
Variable weatherPenalty : WeatherSnapshot -> Q.
Variable aggregateSafety : list Zone -> Q.
Variable zones : gmap nat Zone.
Variable segs : list Segment.

(** C6. Two calls of findRoute with the same source, destination, options
    and snapshot that both return a route return the same route, whatever
    the clock read.  That route is the route of a simple path over the
    usable segments that no other such path beats: none is cheaper, none
    of equal cost has fewer hops, none of equal cost and hops has a
    lexicographically smaller zone-id sequence; and a path that is as
    good has the same zone-id sequence. *)
Theorem findRoute_deterministic_canonical
    (snapshot : gmap nat OccupancyRecord) (w : WeatherSnapshot)
    (src dst : nat) (opts : Options) (t1 t2 : Z) (r1 r2 : Route) :
  findRoute crowdPenalty weatherPenalty aggregateSafety zones segs
            snapshot w src dst opts t1 = Found r1 ->
  findRoute crowdPenalty weatherPenalty aggregateSafety zones segs
            snapshot w src dst opts t2 = Found r2 ->
  r1 = r2 /\
  exists best,
    SimplePath opts segs dst [src] src best /\
    r1 = mkRoute crowdPenalty weatherPenalty aggregateSafety zones snapshot w src best /\
    forall p, SimplePath opts segs dst [src] src p ->
      (totalTime r1 <= pathCost crowdPenalty weatherPenalty snapshot w p)%Q /\
      ((pathCost crowdPenalty weatherPenalty snapshot w p == totalTime r1)%Q ->
       (length best <= length p)%nat /\
       (length p = length best ->
        lexCompare (route_zones r1) (zonesOf src p) <> Gt)) /\
      (pathCompare crowdPenalty weatherPenalty snapshot w src p best <> Gt ->
       zonesOf src p = route_zones r1).
Proof.
  unfold findRoute. intros H1 H2.
  destruct (deadline opts <? t1); [discriminate H1|].
  destruct (deadline opts <? t2); [discriminate H2|].
  destruct (zones !! src); [|discriminate H1].
  destruct (zones !! dst); [|discriminate H1].
  destruct (candidates segs opts src dst) as [|b l] eqn:Hc; [discriminate H1|].
  injection H1 as <-. injection H2 as <-.
  split; [reflexivity|].
  set (best := pickBest crowdPenalty weatherPenalty snapshot w src b l).
  exists best.
  assert (Hbest : In best (candidates segs opts src dst)).
  { rewrite Hc. apply pickBest_in. }
  split; [apply candidates_spec, Hbest|].
  split; [reflexivity|].
  intros p Hp. apply candidates_spec in Hp. rewrite Hc in Hp.
  pose proof (pickBest_min crowdPenalty weatherPenalty snapshot w src l b p Hp)
    as Hmin.
  fold best in Hmin. rewrite pathCompare_Lt_iff in Hmin.
  cbn [totalTime route_zones mkRoute].
  split.
  { destruct (Qlt_le_dec (pathCost crowdPenalty weatherPenalty snapshot w p)
                         (pathCost crowdPenalty weatherPenalty snapshot w best))
      as [Hlt|Hle]; [|exact Hle].
    exfalso. apply Hmin. left. exact Hlt. }
  split.
  { intros Heq. split.
    - destruct (Nat.le_gt_cases (length best) (length p)) as [Hle|Hgt]; [exact Hle|].
      exfalso. apply Hmin. right. split; [exact Heq|]. left. exact Hgt.
    - intros Hlen Hgt. apply Hmin. right. split; [exact Heq|]. right.
      split; [exact Hlen|]. rewrite lexCompare_antisym, Hgt. reflexivity. }
  intros Hng.
  assert (Heq : pathCompare crowdPenalty weatherPenalty snapshot w src p best = Eq).
  { destruct (pathCompare crowdPenalty weatherPenalty snapshot w src p best) eqn:E;
      [reflexivity| |congruence].
    exfalso. apply Hmin. apply pathCompare_Lt_iff. exact E. }
  apply pathCompare_Eq_iff in Heq. tauto.
Qed.

End RoutePlannerFacts.

(** On the small venue the direct segment X-Y costs 20 and so does the
    way over Z; the tie goes to the path with fewer hops, at any clock
    reading within the deadline. *)
Lemma findRoute_deterministic_canonical_witness :
  findRoute examplePenalty exampleWeatherPenalty exampleSafety exampleZones
            exampleSegments exampleStore exampleWeather 0 1 exampleOptions 0
  = findRoute examplePenalty exampleWeatherPenalty exampleSafety exampleZones
              exampleSegments exampleStore exampleWeather 0 1 exampleOptions 3
  /\ (length [(exampleDirect, 1%nat)] <= length exampleDetour)%nat.
Proof.
  assert (H1 : findRoute examplePenalty exampleWeatherPenalty exampleSafety
                 exampleZones exampleSegments exampleStore exampleWeather 0 1
                 exampleOptions 0
               = Found (mkRoute examplePenalty exampleWeatherPenalty exampleSafety
                          exampleZones exampleStore exampleWeather 0
                          [(exampleDirect, 1%nat)]))
    by (vm_compute; reflexivity).
  assert (H2 : findRoute examplePenalty exampleWeatherPenalty exampleSafety
                 exampleZones exampleSegments exampleStore exampleWeather 0 1
                 exampleOptions 3
               = Found {| route_zones := [0%nat; 1%nat]; route_segments := [0%nat];
                          totalDistance := 300; totalTime := 20;
                          safetyScore := 7; crowdExposure := 20 |})
    by (vm_compute; reflexivity).
  destruct (findRoute_deterministic_canonical _ _ _ _ _ _ _ _ _ _ _ _ _ _ H1 H2)
    as (E & best & _ & Eb & Hmin).
  split; [rewrite H1, H2, E; reflexivity|].
  assert (Hd : SimplePath exampleOptions exampleSegments 1 [0%nat] 0 exampleDetour).
  { apply sp_hop; [discriminate|cbn; tauto|reflexivity|reflexivity| |].
    - cbn. intros [H|[]]; discriminate H.
    - apply sp_hop; [discriminate|cbn; tauto|reflexivity|reflexivity| |constructor].
      cbn. intros [H|[H|[]]]; discriminate H. }
  destruct (Hmin exampleDetour Hd) as (_ & Htie & _).
  assert (Hb : length best = 1%nat).
  { apply (f_equal route_segments) in Eb. apply (f_equal (@length nat)) in Eb.
    cbn in Eb. rewrite length_map in Eb. symmetry. exact Eb. }
  change (length [(exampleDirect, 1%nat)]) with 1%nat. rewrite <- Hb.
  apply Htie. vm_compute. reflexivity.
Defined.

Lemma stale_update_is_noop_witness :
  applyUpdate exampleZones 0 950 Measured 100 exampleStore
  = (Rejected StaleData, exampleStore).
Proof.
  apply (stale_update_is_noop exampleZones exampleStore 0 950 Measured 100
           exampleRecord).
  - reflexivity.
  - cbn. lia.
Defined.

Lemma emergency_status_moves_forward_witness :
  setStatus 7 Reported 50 exampleBook = (Rejected InvalidInput, exampleBook).
Proof.
  apply (emergency_status_moves_forward 7 Reported 50 exampleBook exampleEmergency);
    reflexivity.
Defined.

End CoreFacts.

(* ===================================================================== *)
(** * Part V: further properties of the dashboard                        *)
(* ===================================================================== *)

Module DashboardMore.
Import Dashboard.

(** ** Colour tables *)

(** Both colour tables send exactly the strings outside their four
    literals to the gray fallback, and tell their four literals apart. *)
Theorem colour_tables_fallback (s : string) :
  (getCrowdLevelColor s = "bg-gray-100 text-gray-800 border-gray-200" <->
   ~ In s ["low"; "medium"; "high"; "critical"]) /\
  (getSeverityColor s = "bg-gray-100 text-gray-800" <->
   ~ In s ["low"; "medium"; "high"; "critical"]) /\
  (forall a b : CrowdLevel,
     getCrowdLevelColor (level_str a) = getCrowdLevelColor (level_str b) -> a = b) /\
  (forall a b : Severity,
     getSeverityColor (severity_str a) = getSeverityColor (severity_str b) -> a = b).
Proof.
  split; [|split; [|split]].
  - unfold getCrowdLevelColor. cbn [In].
    repeat match goal with
           | |- context [String.eqb s ?c] => destruct (String.eqb_spec s c) as [->|?]
           end;
      (split; intros H; first [discriminate H | reflexivity | intuition congruence]).
  - unfold getSeverityColor. cbn [In].
    repeat match goal with
           | |- context [String.eqb s ?c] => destruct (String.eqb_spec s c) as [->|?]
           end;
      (split; intros H; first [discriminate H | reflexivity | intuition congruence]).
  - intros a b. destruct a, b; vm_compute; intros H; first [reflexivity | discriminate H].
  - intros a b. destruct a, b; vm_compute; intros H; first [reflexivity | discriminate H].
Qed.

Lemma colour_tables_fallback_witness :
  getCrowdLevelColor "Critical" = "bg-gray-100 text-gray-800 border-gray-200".
Proof.
  apply (colour_tables_fallback "Critical").
  cbn. intros [H|[H|[H|[H|[]]]]]; discriminate H.
Defined.

(** ** The map tiles *)



(** ** Live statistics *)





(** ** The alert banner and the emergency tab *)

Lemma banner_length (l : list Emergency) :
  Z.of_nat (length (List.filter
                      (fun e => String.eqb (status_str (status e)) "active"
                                || String.eqb (status_str (status e)) "responding") l))
  = countActive l + countResponding l.
Proof.
  induction l as [|e l IH]; [reflexivity|].
  cbn [List.filter countActive countResponding].
  destruct (status e); cbn -[Z.of_nat Z.add]; cbn [length]; lia.
Qed.

(** The banner holds as many alerts as there are active and responding
    emergencies together, so it exceeds the "Emergencies" counter by the
    number of responding ones; it is hidden exactly when every emergency
    is resolved. *)
Theorem banner_size_and_visibility (s : DashboardState) :
  Z.of_nat (length (alertBanner s))
    = emergenciesCounter s + countResponding (emergencies s) /\
  (alertBannerShown s = false <->
   Forall (fun e => status e = Resolved) (emergencies s)).
Proof.
  assert (Hc : emergenciesCounter s = countActive (emergencies s)).
  { unfold emergenciesCounter, activeEmergencies.
    apply DashboardFacts.counter_is_countActive. }
  split.
  { rewrite Hc. apply banner_length. }
  clear Hc. unfold alertBannerShown, alertBanner.
  induction (emergencies s) as [|e l IH]; cbn [List.filter].
  - split; [constructor|reflexivity].
  - destruct (status e) eqn:E; cbn -[Z.of_nat Z.ltb]; cbn [length].
    + split; [intros H; apply Z.ltb_ge in H; lia|].
      intros H. inversion H; subst. congruence.
    + rewrite IH. split; [intros H; constructor; assumption|].
      intros H. inversion H; assumption.
    + split; [intros H; apply Z.ltb_ge in H; lia|].
      intros H. inversion H; subst. congruence.
Qed.

(** The emergency tab lists exactly the active alerts of the banner, in
    the banner's order; and in the banner the destructive badges are as
    many as the "Emergencies" counter says. *)
Theorem emergency_tab_within_banner (s : DashboardState) :
  activeEmergencies s
    = List.filter (fun e => String.eqb (status_str (status e)) "active")
                  (alertBanner s) /\
  Z.of_nat (length (List.filter
                      (fun e => String.eqb (alertBadgeVariant e) "destructive")
                      (alertBanner s)))
    = emergenciesCounter s /\
  incl (activeEmergencies s) (alertBanner s).
Proof.
  unfold emergenciesCounter, activeEmergencies, alertBanner, alertBadgeVariant.
  split; [|split].
  - induction (emergencies s) as [|e l IH]; [reflexivity|].
    cbn [List.filter]. destruct (status e) eqn:E; cbn;
      rewrite ?E; cbn; rewrite <- IH; reflexivity.
  - induction (emergencies s) as [|e l IH]; [reflexivity|].
    cbn [List.filter]. destruct (status e) eqn:E; cbn -[Z.of_nat];
      rewrite ?E; cbn -[Z.of_nat]; cbn [length]; lia.
  - intros e He. apply filter_In in He. destruct He as [Hin Hst].
    apply filter_In. split; [exact Hin|]. rewrite Hst. reflexivity.
Qed.

(** The detail line of an alert: a missing team or an empty team name
    adds nothing; a missing response time adds nothing; a response time
    of 0 puts a bare 0 on the page, without the "Response" label; any
    other response time is shown with the label. *)
Theorem alert_details_falsy (localeTime : string) (e : Emergency) :
  (assigned_team e = None \/ assigned_team e = Some EmptyString ->
   teamChildren e = []) /\
  (response_time e = None -> responseChildren e = []) /\
  (response_time e = Some 0 -> responseChildren e = [ChNum 0]) /\
  (In (ChText " | Response: ") (responseChildren e) <->
   exists n, response_time e = Some n /\ n <> 0) /\
  (2 <= length (alertDetails localeTime e) <= 6)%nat.
Proof.
  unfold alertDetails, teamChildren, responseChildren.
  split; [intros [->| ->]; reflexivity|].
  split; [intros ->; reflexivity|].
  split; [intros ->; reflexivity|].
  split.
  - split.
    + intros H. destruct (response_time e) as [n|]; [|destruct H].
      destruct (Z.eqb_spec n 0) as [E|Hn].
      * destruct H as [H|[]]. discriminate H.
      * exists n. split; [reflexivity|exact Hn].
    + intros (n & -> & Hn). destruct (Z.eqb_spec n 0); [contradiction|].
      left. reflexivity.
  - rewrite !length_app.
    destruct (assigned_team e) as [t|]; [destruct (String.eqb t EmptyString)|];
      destruct (response_time e) as [n|];
      repeat match goal with
             | |- context [?x =? 0] => destruct (x =? 0)
             end; cbn; lia.
Qed.

Lemma alert_details_falsy_witness :
  responseChildren
    {| id := "3"; type := "Lost Child"; location := "Food Court Area";
       severity := SevLow; status := Active; timestamp := "2024-01-15T12:00:00Z";
       response_time := Some 0; assigned_team := None |}
  = [ChNum 0].
Proof.
  apply (alert_details_falsy "12:00:00 PM"
           {| id := "3"; type := "Lost Child"; location := "Food Court Area";
              severity := SevLow; status := Active;
              timestamp := "2024-01-15T12:00:00Z";
              response_time := Some 0; assigned_team := None |}).
  reflexivity.
Defined.

(** ** Route cards and scenarios *)

(** A route card carries at most one badge; a pilgrim route carries none
    and every other type carries its own. *)
Theorem route_badge_at_most_one (route : RouteData) :
  (length (routeBadges route) <= 1)%nat /\
  (routeBadges route = [] <-> route_type route = Pilgrim) /\
  (forall r2, routeBadges route = routeBadges r2 -> route_type route = route_type r2).
Proof.
  unfold routeBadges.
  split; [destruct (route_type route); cbn; lia|].
  split; [destruct (route_type route); cbn; split; congruence|].
  intros r2. destruct (route_type route), (route_type r2); cbn; congruence.
Qed.

Lemma route_badge_at_most_one_witness :
  route_type mainPilgrimRoute = Pilgrim.
Proof.
  apply (route_badge_at_most_one mainPilgrimRoute). reflexivity.
Defined.

(** Looking a scenario up by the selected id finds the scenario of the
    list that bears this id, and every scenario of the list is found
    under its own id; an id that no scenario bears finds nothing. *)
Theorem findScenario_by_id (sid : string) (sc : SimulationScenario) :
  (findScenario sid = Some sc <->
   In sc simulationScenarios /\ scenario_id sc = sid) /\
  (findScenario sid = None <->
   ~ In sid (List.map scenario_id simulationScenarios)).
Proof.
  unfold findScenario. split.
  - split.
    + intros H. apply find_some in H. destruct H as [Hin He].
      split; [exact Hin|]. apply String.eqb_eq, He.
    + intros [Hin <-]. cbn [simulationScenarios In] in Hin.
      destruct Hin as [<-|[<-|[<-|[<-|[]]]]]; reflexivity.
  - cbn [simulationScenarios List.find List.map scenario_id In].
    repeat match goal with
           | |- context [String.eqb ?c sid] => destruct (String.eqb_spec c sid) as [<-|?]
           end;
      (split; intros H; first [discriminate H | reflexivity | intuition congruence]).
Qed.

Lemma findScenario_by_id_witness :
  option_map duration (findScenario "2") = Some 45.
Proof.
  assert (H : findScenario "2" = Some (nth 1 simulationScenarios
                                          (Build_SimulationScenario "0" "none" CrowdOverflow "none" 0))).
  { apply (findScenario_by_id "2"). split; [cbn; tauto|reflexivity]. }
  rewrite H. reflexivity.
Defined.

(** ** Intervals of the simulation *)

Lemma run_cons (p : Page) (e : Event) (es : list Event) :
  run p (e :: es) = run (step p e) es.
Proof. reflexivity. Qed.

Lemma isLive_In (i : nat) (p : Page) : isLive i p = true <-> In i (intervals p).
Proof.
  unfold isLive. rewrite existsb_exists. split.
  - intros (j & Hj & E). apply Nat.eqb_eq in E. subst. exact Hj.
  - intros H. exists i. split; [exact H|apply Nat.eqb_refl].
Qed.

Lemma step_idsFresh (p : Page) (e : Event) : idsFresh p -> idsFresh (step p e).
Proof.
  intros [Hnd Hlt].
  destruct e; cbn [step]; try (split; assumption).
  - split; cbn.
    + constructor; [|exact Hnd]. intros Hin.
      rewrite List.Forall_forall in Hlt. specialize (Hlt _ Hin). lia.
    + constructor; [lia|]. eapply List.Forall_impl; [|exact Hlt]. cbn. intros; lia.
  - destruct (isLive i p); [|split; assumption]. unfold simulationTick.
    destruct (100 <=? simulationProgress (ui p)); [|split; assumption].
    split; cbn.
    + apply List.NoDup_filter, Hnd.
    + apply List.Forall_forall. intros j Hj. apply filter_In in Hj.
      rewrite List.Forall_forall in Hlt. apply Hlt, Hj.
Qed.

Lemma run_idsFresh (es : list Event) (p : Page) : idsFresh p -> idsFresh (run p es).
Proof.
  revert p. induction es as [|e es IH]; intros p Hp; [exact Hp|].
  rewrite run_cons. apply IH, step_idsFresh, Hp.
Qed.

Lemma run_interval_count (es : list Event) (p : Page) :
  nextInterval (run p es) = (nextInterval p + length (List.filter isStart es))%nat /\
  (length (intervals (run p es))
   <= length (intervals p) + length (List.filter isStart es))%nat.
Proof.
  revert p. induction es as [|e es IH]; intros p; [cbn; lia|].
  rewrite run_cons. destruct (IH (step p e)) as [IHn IHl]. rewrite IHn.
  assert (Hs : nextInterval (step p e)
               = (nextInterval p + length (List.filter isStart [e]))%nat /\
               (length (intervals (step p e))
                <= length (intervals p) + length (List.filter isStart [e]))%nat).
  { destruct e; cbn; try lia.
    destruct (isLive i p); [|lia]. unfold simulationTick.
    destruct (100 <=? simulationProgress (ui p)); cbn; [|lia].
    pose proof (List.filter_length_le (fun j => negb (Nat.eqb j i)) (intervals p)).
    lia. }
  destruct Hs as [Hn Hl]. cbn [List.filter] in *.
  destruct (isStart e); cbn [length] in *; lia.
Qed.

(** Interval ids are never reused: in every reachable state the live ids
    are pairwise distinct and smaller than the next id to hand out, the
    next id is the number of starts so far, and there are at most as many
    live intervals as there were starts. *)
Theorem interval_ids_fresh (es : list Event) :
  let p := run initialPage es in
  List.NoDup (intervals p) /\
  Forall (fun i => (i < nextInterval p)%nat) (intervals p) /\
  isLive (nextInterval p) p = false /\
  nextInterval p = length (List.filter isStart es) /\
  (length (intervals p) <= length (List.filter isStart es))%nat.
Proof.
  intros p.
  assert (Hf : idsFresh p).
  { apply run_idsFresh. split; cbn; constructor. }
  destruct Hf as [Hnd Hlt].
  destruct (run_interval_count es initialPage) as [Hn Hl]. fold p in Hn, Hl.
  split; [exact Hnd|]. split; [exact Hlt|]. split; [|split; [exact Hn|exact Hl]].
  destruct (isLive (nextInterval p) p) eqn:E; [|reflexivity].
  apply isLive_In in E. rewrite List.Forall_forall in Hlt.
  specialize (Hlt _ E). lia.
Qed.

Lemma step_running_live (p : Page) (e : Event) :
  (isSimulationRunning (ui p) = true -> intervals p <> []) ->
  isSimulationRunning (ui (step p e)) = true -> intervals (step p e) <> [].
Proof.
  intros Hp. destruct e; cbn [step]; try exact Hp.
  - intros _. cbn. discriminate.
  - destruct (isLive i p); [|exact Hp]. unfold simulationTick.
    destruct (100 <=? simulationProgress (ui p)); cbn; [discriminate|exact Hp].
  - cbn. discriminate.
Qed.

(** While the running flag is set, and the Start button therefore
    disabled, some interval is live: the flag is never left set with no
    timer to clear it. *)
Theorem running_has_live_interval (es : list Event) :
  isSimulationRunning (ui (run initialPage es)) = true ->
  intervals (run initialPage es) <> [].
Proof.
  assert (G : forall p, (isSimulationRunning (ui p) = true -> intervals p <> []) ->
                        isSimulationRunning (ui (run p es)) = true ->
                        intervals (run p es) <> []).
  { induction es as [|e es IH]; intros p Hp; [exact Hp|].
    rewrite run_cons. apply IH, step_running_live, Hp. }
  apply G. cbn. discriminate.
Qed.

Lemma running_has_live_interval_witness :
  intervals (run initialPage [ChooseScenario "1"; StartSimulation; IntervalFires 0])
  <> [].
Proof.
  apply (running_has_live_interval
           [ChooseScenario "1"; StartSimulation; IntervalFires 0]).
  reflexivity.
Defined.

(** Reset stops no timer: an interval that is live before the reset is
    live after it, and its next firing takes the progress from 0 to 2
    while the running flag stays cleared. *)
Theorem reset_leaves_interval_running (p : Page) (i : nat) :
  isLive i p = true ->
  intervals (step p ResetSimulation) = intervals p /\
  simulationProgress (ui (run p [ResetSimulation; IntervalFires i])) = 2 /\
  isSimulationRunning (ui (run p [ResetSimulation; IntervalFires i])) = false /\
  isLive i (run p [ResetSimulation; IntervalFires i]) = true.
Proof.
  intros Hi. split; [reflexivity|].
  cbn [run fold_left step].
  assert (Hr : isLive i (resetSimulation p) = true) by exact Hi.
  rewrite Hr. unfold simulationTick. cbn. auto.
Qed.

Lemma reset_leaves_interval_running_witness :
  simulationProgress
    (ui (run initialPage
           [StartSimulation; IntervalFires 0; ResetSimulation; IntervalFires 0]))
  = 2.
Proof.
  apply (reset_leaves_interval_running
           (run initialPage [StartSimulation; IntervalFires 0]) 0).
  reflexivity.
Defined.

Lemma firings_complete (i : nat) (m : nat) (p : Page) :
  isLive i p = true ->
  simulationProgress (ui p) = 100 - 2 * Z.of_nat m ->
  let q := run p (repeat (IntervalFires i) (S m)) in
  simulationProgress (ui q) = 100 /\ isSimulationRunning (ui q) = false /\
  isLive i q = false.
Proof.
  revert p. induction m as [|m IH]; intros p Hi Hp; cbv zeta.
  - cbn [repeat run fold_left step]. rewrite Hi. unfold simulationTick.
    rewrite Hp. change (100 <=? 100 - 2 * Z.of_nat 0) with true. cbv iota.
    rewrite !DashboardFacts.isLive_withUi, DashboardFacts.isLive_clearInterval.
    cbn. auto.
  - change (repeat (IntervalFires i) (S (S m)))
      with (IntervalFires i :: repeat (IntervalFires i) (S m)).
    rewrite run_cons. apply IH.
    + cbn [step]. rewrite Hi. unfold simulationTick.
      destruct (Z.leb_spec 100 (simulationProgress (ui p))); [lia|]. exact Hi.
    + cbn [step]. rewrite Hi. unfold simulationTick.
      destruct (Z.leb_spec 100 (simulationProgress (ui p))); [lia|]. cbn. lia.
Qed.

(** Every timer stops itself: from any reachable state, a live interval
    left to fire on its own brings the progress to 100 and then, with one
    more firing, clears itself and the running flag; with the progress at
    2k this takes 51 - k firings, so never more than 51. *)
Theorem live_interval_completes (es : list Event) (i : nat) :
  let p := run initialPage es in
  isLive i p = true ->
  exists n, (1 <= n <= 51)%nat /\
    simulationProgress (ui p) = 100 - 2 * (Z.of_nat n - 1) /\
    let q := run p (repeat (IntervalFires i) n) in
    simulationProgress (ui q) = 100 /\ isSimulationRunning (ui q) = false /\
    isLive i q = false.
Proof.
  intros p Hi.
  destruct (DashboardFacts.run_progress_even es initialPage) as (k & Hk & Hr).
  { exists 0. cbn. lia. }
  fold p in Hk.
  exists (S (Z.to_nat (50 - k))). split; [lia|]. split; [lia|].
  apply firings_complete; [exact Hi|lia].
Qed.

Lemma live_interval_completes_witness :
  exists n, (1 <= n <= 51)%nat /\
    isLive 0 (run (run initialPage [StartSimulation; IntervalFires 0])
                  (repeat (IntervalFires 0) n)) = false.
Proof.
  destruct (live_interval_completes [StartSimulation; IntervalFires 0] 0 eq_refl)
    as (n & Hn & _ & _ & _ & Hl).
  exists n. split; [exact Hn|exact Hl].
Defined.

Lemma fire_below (p : Page) (i : nat) :
  isLive i p = true -> simulationProgress (ui p) < 100 ->
  step p (IntervalFires i)
  = withUi (setSimulationProgress (simulationProgress (ui p) + 2)) p.
Proof.
  intros Hi Hp. cbn [step]. rewrite Hi. unfold simulationTick.
  destruct (Z.leb_spec 100 (simulationProgress (ui p))); [lia|reflexivity].
Qed.

(** The button guards do not keep the timers apart.  In a reachable state
    with a live interval, a progress other than 0 and a scenario selected,
    Reset is enabled and, once clicked, Start is enabled again; clicking
    both leaves the old interval live next to the new one, and one firing
    of each moves the progress by 4. *)
Theorem restart_doubles_timers (es : list Event) (i : nat) :
  let p := run initialPage es in
  isLive i p = true ->
  simulationProgress (ui p) <> 0 ->
  selectedScenario (ui p) <> EmptyString ->
  let q := clickStart (clickReset p) in
  resetDisabled (ui p) = false /\
  startDisabled (ui (clickReset p)) = false /\
  i <> nextInterval p /\
  intervals q = nextInterval p :: intervals p /\
  isLive i q = true /\
  isSimulationRunning (ui q) = true /\
  simulationProgress (ui q) = 0 /\
  simulationProgress (ui (run q [IntervalFires i; IntervalFires (nextInterval p)])) = 4.
Proof.
  intros p Hi Hp Hs.
  assert (Hf : idsFresh p).
  { apply run_idsFresh. split; cbn; constructor. }
  assert (Hne : i <> nextInterval p).
  { destruct Hf as [_ Hlt]. apply isLive_In in Hi.
    rewrite List.Forall_forall in Hlt. specialize (Hlt _ Hi). lia. }
  clearbody p. clear Hf.
  assert (Hrd : resetDisabled (ui p) = false).
  { unfold resetDisabled. apply Z.eqb_neq, Hp. }
  assert (Hsd : startDisabled (ui (resetSimulation p)) = false).
  { unfold startDisabled. cbn. rewrite orb_false_r.
    apply String.eqb_neq, Hs. }
  cbv zeta. unfold clickReset. rewrite Hrd. unfold clickStart. rewrite Hsd.
  split; [reflexivity|]. split; [reflexivity|]. split; [exact Hne|].
  split; [reflexivity|].
  assert (Hq : isLive i (startSimulation (resetSimulation p)) = true).
  { apply isLive_In. right. apply isLive_In, Hi. }
  split; [exact Hq|]. split; [reflexivity|]. split; [reflexivity|].
  assert (Hn : isLive (nextInterval p) (startSimulation (resetSimulation p)) = true).
  { apply isLive_In. left. reflexivity. }
  cbn [run fold_left].
  rewrite (fire_below _ i Hq) by (cbn; lia).
  rewrite (fire_below _ (nextInterval p)) by (rewrite ?DashboardFacts.isLive_withUi; cbn; (exact Hn || lia)).
  reflexivity.
Qed.

Lemma restart_doubles_timers_witness :
  length (intervals
            (clickStart (clickReset
               (run initialPage [ChooseScenario "1"; StartSimulation; IntervalFires 0]))))
  = 2%nat.
Proof.
  destruct (restart_doubles_timers
              [ChooseScenario "1"; StartSimulation; IntervalFires 0] 0)
    as (_ & _ & _ & Hq & _).
  - reflexivity.
  - cbn. discriminate.
  - cbn. discriminate.
  - cbv zeta in Hq. rewrite Hq. reflexivity.
Defined.

(** ** Page-wide state *)

Lemma run_dark (es : list Event) (p : Page) :
  isDarkMode (ui (run p es))
  = xorb (isDarkMode (ui p)) (Nat.odd (length (List.filter isToggle es))).
Proof.
  revert p. induction es as [|e es IH]; intros p.
  - cbn. now rewrite xorb_false_r.
  - rewrite run_cons, IH. cbn [List.filter].
    assert (Hs : isDarkMode (ui (step p e))
                 = xorb (isDarkMode (ui p)) (isToggle e)).
    { destruct e; cbn [step isToggle]; rewrite ?xorb_false_r;
        try (cbn; destruct (isDarkMode (ui p)); reflexivity).
      destruct (isLive i p); [|reflexivity]. unfold simulationTick.
      destruct (100 <=? simulationProgress (ui p)); reflexivity. }
    rewrite Hs. destruct (isToggle e); cbn [length].
    + rewrite Nat.odd_succ, <- Nat.negb_odd.
      destruct (isDarkMode (ui p)), (Nat.odd _); reflexivity.
    + now rewrite xorb_false_r.
Qed.

(** Dark mode is on exactly after an odd number of toggles, whatever else
    happened in between, and two toggles in a row give back the very same
    page. *)
Theorem dark_mode_parity (es : list Event) (p : Page) :
  isDarkMode (ui (run initialPage es))
    = Nat.odd (length (List.filter isToggle es)) /\
  step (step p ToggleDarkMode) ToggleDarkMode = p.
Proof.
  split; [apply (run_dark es initialPage)|].
  destruct p as [[c e w r l d y sc pr ru m n] iv nx]. cbn.
  unfold withUi, setIsDarkMode; cbn. rewrite negb_involutive. reflexivity.
Qed.






(** In every reachable state the Reset button is enabled exactly when the
    progress bar is shown, and the results panel reads "Simulation in
    progress..." exactly when the progress is not 0: so it still reads so
    when the progress stands at 100 and the running flag is cleared. *)
Theorem results_panel_follows_progress (es : list Event) :
  let s := ui (run initialPage es) in
  resetDisabled s = negb (progressShown s) /\
  (resultsMessage s = "Simulation in progress..." <-> simulationProgress s <> 0) /\
  (simulationProgress s = 100 ->
   progressShown s = true /\ resetDisabled s = false /\
   resultsMessage s = "Simulation in progress...").
Proof.
  intros s.
  destruct (DashboardFacts.run_progress_even es initialPage) as (k & Hk & Hr).
  { exists 0. cbn. lia. }
  fold s in Hk.
  unfold resetDisabled, progressShown, resultsMessage.
  destruct (Z.ltb_spec 0 (simulationProgress s)) as [Hpos|Hz];
    destruct (Z.eqb_spec (simulationProgress s) 0) as [E|E]; try lia.
  - split; [reflexivity|]. split; [split; [intros _; exact E|reflexivity]|auto].
  - split; [reflexivity|]. split; [split; [discriminate|contradiction]|intros; lia].
Qed.

Lemma results_panel_follows_progress_witness :
  resultsMessage (ui (simulated "2024-01-15T10:30:00.000Z" "1" 51))
  = "Simulation in progress...".
Proof.
  apply (results_panel_follows_progress
           (Mount "2024-01-15T10:30:00.000Z" :: ChooseScenario "1" :: StartSimulation
            :: repeat (IntervalFires 0) 51)).
  vm_compute. reflexivity.
Defined.

Lemma guardedStep_oneTimer (p : Page) (e : Event) :
  isReset e = false -> oneTimer p -> oneTimer (guardedStep p e).
Proof.
  intros He Hp. destruct e; cbn [guardedStep step]; try exact Hp;
    try discriminate He.
  - unfold clickStart, startDisabled.
    destruct Hp as [[Hi Hr]|(i & Hi & Hr)]; rewrite Hr.
    + destruct (String.eqb (selectedScenario (ui p)) EmptyString); cbn [orb].
      * left. split; assumption.
      * right. exists (nextInterval p). cbn. rewrite Hi. split; reflexivity.
    + rewrite orb_true_r. right. exists i. split; assumption.
  - destruct (isLive i p) eqn:El; [|exact Hp].
    destruct Hp as [[Hi Hr]|(j & Hi & Hr)].
    + unfold isLive in El. rewrite Hi in El. discriminate El.
    + unfold isLive in El. rewrite Hi in El. cbn in El. rewrite orb_false_r in El.
      apply Nat.eqb_eq in El. subst j. unfold simulationTick.
      destruct (100 <=? simulationProgress (ui p)).
      * left. cbn. rewrite Hi. cbn. rewrite Nat.eqb_refl. split; reflexivity.
      * right. exists i. split; assumption.
Qed.

(** As long as Reset is not clicked, the button guards keep the timers
    apart: under any sequence of the other events, with Start arriving as
    a click on its button, either no interval is live and the running
    flag is cleared, or exactly one is live and the flag is set. *)
Theorem single_timer_without_reset (es : list Event) :
  existsb isReset es = false ->
  oneTimer (guardedRun initialPage es).
Proof.
  assert (G : forall p, oneTimer p -> existsb isReset es = false ->
                        oneTimer (guardedRun p es)).
  { induction es as [|e es IH]; intros p Hp He; [exact Hp|].
    cbn [existsb] in He. apply orb_false_iff in He. destruct He as [He Hes].
    cbn [guardedRun fold_left]. apply IH; [|exact Hes].
    apply guardedStep_oneTimer; assumption. }
  apply G. left. split; reflexivity.
Qed.

Lemma single_timer_without_reset_witness :
  oneTimer
    (guardedRun initialPage
       [ChooseScenario "1"; StartSimulation; IntervalFires 0; StartSimulation]).
Proof.
  apply (single_timer_without_reset
           [ChooseScenario "1"; StartSimulation; IntervalFires 0; StartSimulation]).
  reflexivity.
Defined.

End DashboardMore.
